(** * Moddo: feedback classification and printability analysis

    A shallow embedding of the two pieces of decision logic of the
    repository and the properties its specification states about them:

    - [Feedback.extractFeedbackParameters] and
      [Feedback.determineFeedbackType]
      (src/app/api/projects/[id]/feedback/route.ts), the keyword matcher
      that turns a free-text comment into a feedback type and an optional
      parameter object;
    - [Model.analyzePrintability] (model route) and
      [STLConverter.validateForPrinting] (STL route), the threshold rules
      that turn mesh statistics into a printability verdict;
    - around them, the simulated EdgeOne client and the polling loop of
      the model route, the mock converter and the file name of the STL
      route, [Projects.generateProductSpecs] of the projects route, and
      the steps of [useProjectFlow]. *)

From Stdlib Require Import Bool Arith List Ascii String ZArith QArith Lia.
From Stdlib Require Import Qround Lqa DecimalString DecimalN.
Import ListNotations.

Local Close Scope Q_scope.
Local Open Scope nat_scope.
Local Open Scope bool_scope.
Local Open Scope list_scope.
Local Open Scope string_scope.

(** ** The JavaScript built-ins the code relies on *)

Module JS.

(** A text is a sequence of code units below 256 (the Latin-1 range of
    a JavaScript string).  On that range [String.prototype.toLowerCase]
    works code unit by code unit: [A]..[Z] and the accented capitals
    U+00C0..U+00DE (the multiplication sign U+00D7 apart) move up by 32,
    everything else stays. *)
Definition isUpper (n : nat) : bool :=
  ((65 <=? n)%nat && (n <=? 90)%nat) ||
  ((192 <=? n)%nat && (n <=? 222)%nat && negb (n =? 215)%nat).

Definition toLowerChar (c : ascii) : ascii :=
  let n := nat_of_ascii c in
  if isUpper n then ascii_of_nat (n + 32) else c.

Fixpoint toLowerCase (s : string) : string :=
  match s with
  | EmptyString => EmptyString
  | String c s' => String (toLowerChar c) (toLowerCase s')
  end.

(** [s.includes(k)]: [k] occurs in [s] at some position. *)
Fixpoint includes (s k : string) : bool :=
  match s with
  | EmptyString => String.prefix k EmptyString
  | String _ s' => String.prefix k s || includes s' k
  end.

(** A [number] restricted to its numeric values: every finite double is
    a rational and [<], [>] on finite doubles are the order of [Q].
    (NaN is not a numeric value; the callers only pass counts, byte
    sizes and volumes.) *)
Definition number : Type := Q.

Definition lt (a b : number) : bool :=
  (Qnum a * QDen b <? Qnum b * QDen a)%Z.

Definition gt (a b : number) : bool := lt b a.

(** [xs.push(x)] on an array held in a local variable. *)
Definition push {A : Type} (xs : list A) (x : A) : list A := xs ++ [x].

(** [a <= b] and [a >= b] on numeric values. *)
Definition le (a b : number) : bool := Qle_bool a b.

Definition ge (a b : number) : bool := le b a.

(** [Math.floor], and [Math.round], which rounds a half upwards. *)
Definition Math_floor (x : number) : number := inject_Z (Qfloor x).

Definition Math_round (x : number) : number :=
  inject_Z (Qfloor (x + (1 # 2))%Q).

Definition Math_min (a b : number) : number := if lt b a then b else a.

Definition Math_max (a b : number) : number := if lt a b then b else a.

(** The white space and line terminators of the Latin-1 range, which
    [trim] and [parseInt] skip: TAB, LF, VT, FF, CR, space and the
    no-break space. *)
Definition isWhiteSpace (c : ascii) : bool :=
  let n := nat_of_ascii c in
  ((9 <=? n)%nat && (n <=? 13)%nat) || (n =? 32)%nat || (n =? 160)%nat.

Fixpoint trimStart (s : string) : string :=
  match s with
  | EmptyString => EmptyString
  | String c s' => if isWhiteSpace c then trimStart s' else s
  end.

Fixpoint trimEnd (s : string) : string :=
  match s with
  | EmptyString => EmptyString
  | String c s' =>
      match trimEnd s' with
      | EmptyString => if isWhiteSpace c then EmptyString
                       else String c EmptyString
      | t => String c t
      end
  end.

(** [s.trim()]. *)
Definition trim (s : string) : string := trimEnd (trimStart s).

(** [s.split(sep)] for a separator of one code unit. *)
Fixpoint split (sep : ascii) (s : string) : list string :=
  match s with
  | EmptyString => [EmptyString]
  | String c s' =>
      if Ascii.eqb c sep then EmptyString :: split sep s'
      else match split sep s' with
           | [] => [String c EmptyString]
           | h :: t => String c h :: t
           end
  end.

(** The value of a digit in the given radix (10 or 16). *)
Definition digitValue (radix : N) (c : ascii) : option N :=
  let n := N_of_ascii c in
  if ((48 <=? n) && (n <=? 57))%N then Some (n - 48)%N
  else if (radix =? 16)%N && ((97 <=? n) && (n <=? 102))%N
  then Some (n - 87)%N
  else if (radix =? 16)%N && ((65 <=? n) && (n <=? 70))%N
  then Some (n - 55)%N
  else None.

(** The value of the longest prefix of digits, [None] when it is empty. *)
Fixpoint digitsPrefix (radix : N) (s : string) (acc : option N) : option N :=
  match s with
  | EmptyString => acc
  | String c s' =>
      match digitValue radix c with
      | Some d =>
          digitsPrefix radix s'
            (Some (radix * match acc with Some a => a | None => 0 end + d)%N)
      | None => acc
      end
  end.

(** [parseInt(s)] without a radix argument: leading white space, a sign,
    a [0x] prefix, then the digits; [None] is NaN.  The value is the exact
    integer (a JavaScript number holds it exactly up to 2^53). *)
Definition parseInt (s : string) : option Z :=
  let body := trimStart s in
  let '(sign, body) :=
    match body with
    | String "-" r => ((-1)%Z, r)
    | String "+" r => (1%Z, r)
    | _ => (1%Z, body)
    end in
  let '(radix, body) :=
    match body with
    | String "0" (String "x" r) => (16%N, r)
    | String "0" (String "X" r) => (16%N, r)
    | _ => (10%N, body)
    end in
  match digitsPrefix radix body None with
  | Some n => Some (sign * Z.of_N n)%Z
  | None => None
  end.

(** [String(n)] for a non-negative integer below 10^21. *)
Definition Number_toString (n : N) : string :=
  NilEmpty.string_of_uint (N.to_uint n).

(** [s.replace(/[^a-zA-Z0-9]/g, '_')]. *)
Definition isAlphaNumeric (c : ascii) : bool :=
  let n := nat_of_ascii c in
  ((48 <=? n)%nat && (n <=? 57)%nat) ||
  ((65 <=? n)%nat && (n <=? 90)%nat) ||
  ((97 <=? n)%nat && (n <=? 122)%nat).

Fixpoint replaceNonAlphaNumeric (s : string) : string :=
  match s with
  | EmptyString => EmptyString
  | String c s' =>
      String (if isAlphaNumeric c then c else "_"%char)
             (replaceNonAlphaNumeric s')
  end.

(** [Buffer.from(s).length]: the bytes of the UTF-8 encoding, two for
    each code unit from 128 on. *)
Fixpoint Buffer_length (s : string) : nat :=
  match s with
  | EmptyString => 0
  | String c s' =>
      (if (nat_of_ascii c <? 128)%nat then 1 else 2) + Buffer_length s'
  end.

End JS.

(** ** Feedback route *)

Module Feedback.
Import JS.

(** [Feedback['extractedParameters']] of lib/types. *)
Inductive SizeAdjustment : Type := larger | smaller | wider | taller.

Inductive MaterialType : Type := PLA | TPU | PETG | ABS.

(** An object with three optional properties; [None] is a property
    that was never assigned. *)
Record ExtractedParameters : Type := mkParameters {
  sizeAdjustment : option SizeAdjustment;
  materialChange : option MaterialType;
  functionalChanges : option (list string)
}.

(** The literal [{}]. *)
Definition emptyObject : ExtractedParameters := mkParameters None None None.

Definition set_sizeAdjustment (p : ExtractedParameters) (v : SizeAdjustment)
  : ExtractedParameters :=
  mkParameters (Some v) (materialChange p) (functionalChanges p).

Definition set_materialChange (p : ExtractedParameters) (v : MaterialType)
  : ExtractedParameters :=
  mkParameters (sizeAdjustment p) (Some v) (functionalChanges p).

Definition set_functionalChanges (p : ExtractedParameters) (v : list string)
  : ExtractedParameters :=
  mkParameters (sizeAdjustment p) (materialChange p) (Some v).

Definition key_if {A : Type} (o : option A) (k : string) : list string :=
  match o with Some _ => [k] | None => [] end.

(** [Object.keys(parameters)]: the names of the assigned properties. *)
Definition Object_keys (p : ExtractedParameters) : list string :=
  key_if (sizeAdjustment p) "sizeAdjustment" ++
  key_if (materialChange p) "materialChange" ++
  key_if (functionalChanges p) "functionalChanges".

Inductive FeedbackType : Type := comment | refinement_request | approval.

(** route.ts, lines 38-84.  [None] is [undefined]. *)
Definition extractFeedbackParameters (feedbackText : string)
  : option ExtractedParameters :=
  let lowerText := toLowerCase feedbackText in
  let parameters := emptyObject in
  (* Size adjustments *)
  let parameters :=
    if includes lowerText "bigger" || includes lowerText "larger"
       || includes lowerText "increase size"
    then set_sizeAdjustment parameters larger
    else if includes lowerText "smaller" || includes lowerText "reduce size"
            || includes lowerText "compact"
    then set_sizeAdjustment parameters smaller
    else if includes lowerText "wider" || includes lowerText "broader"
    then set_sizeAdjustment parameters wider
    else if includes lowerText "taller" || includes lowerText "higher"
    then set_sizeAdjustment parameters taller
    else parameters in
  (* Material changes *)
  let parameters :=
    if includes lowerText "flexible" || includes lowerText "rubbery"
       || includes lowerText "tpu"
    then set_materialChange parameters TPU
    else if includes lowerText "rigid" || includes lowerText "hard"
            || includes lowerText "pla"
    then set_materialChange parameters PLA
    else if includes lowerText "durable" || includes lowerText "strong"
            || includes lowerText "petg"
    then set_materialChange parameters PETG
    else if includes lowerText "abs"
    then set_materialChange parameters ABS
    else parameters in
  (* Functional changes *)
  let functionalChanges : list string := [] in
  let functionalChanges :=
    if includes lowerText "hole" || includes lowerText "opening"
    then push functionalChanges "Add holes or openings"
    else functionalChanges in
  let functionalChanges :=
    if includes lowerText "grip" || includes lowerText "texture"
    then push functionalChanges "Add grip texture"
    else functionalChanges in
  let functionalChanges :=
    if includes lowerText "compartment" || includes lowerText "section"
    then push functionalChanges "Add compartments"
    else functionalChanges in
  let functionalChanges :=
    if includes lowerText "smooth" || includes lowerText "rounded"
    then push functionalChanges "Smooth edges"
    else functionalChanges in
  let parameters :=
    if (0 <? List.length functionalChanges)%nat
    then set_functionalChanges parameters functionalChanges
    else parameters in
  if (0 <? List.length (Object_keys parameters))%nat
  then Some parameters else None.

(** route.ts, lines 90-109. *)
Definition determineFeedbackType (feedbackText : string) : FeedbackType :=
  let lowerText := toLowerCase feedbackText in
  (* Check for approval indicators *)
  if includes lowerText "perfect" || includes lowerText "looks good"
     || includes lowerText "approve" || includes lowerText "ready"
  then approval
  (* Check for refinement requests *)
  else if includes lowerText "change" || includes lowerText "adjust"
          || includes lowerText "make it" || includes lowerText "need"
          || includes lowerText "should be" || includes lowerText "add"
          || includes lowerText "remove"
  then refinement_request
  (* Default to general comment *)
  else comment.

End Feedback.

(** ** Printability checks *)

(** [ModelData['printabilityCheck']] of lib/types. *)
Record PrintabilityCheck : Type := mkCheck {
  passed : bool;
  issues : list string;
  recommendations : list string
}.

Module Model.
Import JS.

Record modelData : Type := mkModelData {
  vertices : number;
  faces : number;
  fileSize : number
}.

(** Model route, lines 136-169.  The two arrays are threaded as a pair. *)
Definition analyzePrintability (m : modelData) : PrintabilityCheck :=
  let issues : list string := [] in
  let recommendations : list string := [] in
  (* Check model complexity *)
  let '(issues, recommendations) :=
    if gt (vertices m) (100000 # 1)%Q
    then (push issues "High vertex count may slow printing",
          push recommendations "Consider reducing model complexity")
    else (issues, recommendations) in
  (* Check file size *)
  let '(issues, recommendations) :=
    if gt (fileSize m) (10 * 1024 * 1024)%Q
    then (push issues "Large file size may indicate excessive detail",
          push recommendations "Optimize mesh for 3D printing")
    else (issues, recommendations) in
  let recommendations :=
    if (List.length issues =? 0)%nat
    then push (push (push recommendations
           "Model appears print-ready")
           "Recommended layer height: 0.2mm")
           "Supports may be needed for overhangs"
    else recommendations in
  mkCheck (List.length issues =? 0)%nat issues recommendations.

End Model.

Module STLConverter.
Import JS.

Record meshData : Type := mkMeshData {
  vertices : number;
  faces : number;
  volume : number
}.

(** STL route, lines 530-574. *)
Definition validateForPrinting (m : meshData) : PrintabilityCheck :=
  let issues : list string := [] in
  let recommendations : list string := [] in
  (* Check minimum size *)
  let '(issues, recommendations) :=
    if lt (volume m) (1 # 1)%Q
    then (push issues "Model may be too small for reliable printing",
          push recommendations "Consider scaling up the model")
    else (issues, recommendations) in
  (* Check maximum size *)
  let '(issues, recommendations) :=
    if gt (volume m) (1000 # 1)%Q
    then (push issues "Model may be too large for some 3D printers",
          push recommendations "Consider scaling down or printing in parts")
    else (issues, recommendations) in
  (* Check mesh complexity *)
  let '(issues, recommendations) :=
    if gt (faces m) (50000 # 1)%Q
    then (push issues "High face count may cause slicer performance issues",
          push recommendations "Consider mesh decimation to reduce complexity")
    else (issues, recommendations) in
  let '(issues, recommendations) :=
    if lt (faces m) (100 # 1)%Q
    then (push issues "Low face count may result in blocky appearance",
          push recommendations "Consider increasing mesh resolution")
    else (issues, recommendations) in
  (* Default recommendations for successful models *)
  let recommendations :=
    if (List.length issues =? 0)%nat
    then push (push (push (push recommendations
           "Model appears optimized for 3D printing")
           "Recommended infill: 15-20%")
           "Recommended layer height: 0.2mm")
           "Consider orientation to minimize supports"
    else recommendations in
  mkCheck (List.length issues =? 0)%nat issues recommendations.

(** A line feed, as [\n] in the literals of the source. *)
Definition nl : string := String (ascii_of_nat 10) EmptyString.

(** STL route, lines 507-524: a header, two triangles, a footer. *)
Definition generateMockSTL (projectId : string) : string :=
  let header := "solid Moddo_" ++ projectId ++ nl in
  let footer := "endsolid Moddo_" ++ projectId ++ nl in
  let cubeTriangles :=
    [ "facet normal 0.0 0.0 1.0" ++ nl ++ "  outer loop" ++ nl ++
      "    vertex 0.0 0.0 1.0" ++ nl ++ "    vertex 1.0 0.0 1.0" ++ nl ++
      "    vertex 1.0 1.0 1.0" ++ nl ++ "  endloop" ++ nl ++
      "endfacet" ++ nl;
      "facet normal 0.0 0.0 1.0" ++ nl ++ "  outer loop" ++ nl ++
      "    vertex 0.0 0.0 1.0" ++ nl ++ "    vertex 1.0 1.0 1.0" ++ nl ++
      "    vertex 0.0 1.0 1.0" ++ nl ++ "  endloop" ++ nl ++
      "endfacet" ++ nl ] in
  let triangles := String.concat "" cubeTriangles in
  header ++ triangles ++ footer.

(** The result of a conversion: the buffer and the mesh statistics that
    are spread beside it. *)
Record conversion : Type := mkConversion {
  stlBuffer : string;
  meshStats : meshData
}.

(** STL route, lines 459-501.  The three calls of [Math.random()], each a
    number from 0 up to but not including 1, are arguments; the simulated
    delay and the log lines leave no trace in the result. *)
Definition convertGLTFToSTL (gltfUrl projectId : string)
  (random1 random2 random3 : number) : conversion :=
  let mockSTLContent := generateMockSTL projectId in
  let stlBuffer := mockSTLContent in
  let meshStats :=
    mkMeshData
      (5000 + Math_floor (random1 * 10000))%Q
      (3000 + Math_floor (random2 * 6000))%Q
      (15 + random3 * 30)%Q in
  mkConversion stlBuffer meshStats.

End STLConverter.

(** ** STL route: the name of the uploaded file *)

Module STLRoute.
Import JS.

(** STL route, line 687: [fileName]. *)
Definition fileName (prompt projectId : string) : string :=
  substring 0 30 (replaceNonAlphaNumeric prompt)
  ++ "_" ++ projectId ++ ".stl".

(** STL route, line 588: the storage path of [uploadSTLFile]. *)
Definition storagePath (projectId fileName : string) : string :=
  "stl-files/" ++ projectId ++ "/" ++ fileName.

End STLRoute.

(** ** EdgeOne client and the model route around it *)

Module EdgeOneClient.
Import JS.

Inductive JobStatus : Type := pending | processing | completed | failed.

Record JobResult : Type := mkJobResult {
  status : JobStatus;
  progress : option number;
  downloadUrl : option string;
  error : option string
}.

(** Model route, lines 45-81: the job id, from [Date.now()] and the nine
    characters taken from [Math.random().toString(36)]. *)
Definition submitFor3DReconstruction (now : N) (randomPart : string)
  : string :=
  "edge_" ++ Number_toString now ++ "_" ++ randomPart.

(** Model route, lines 87-129, [Date.now()] being the argument [now].
    [jobId.split('_')[1]] is [undefined] when the id has no underscore,
    and [parseInt(undefined)] reads the text "undefined"; a NaN job age
    fails the comparison with 5000. *)
Definition checkJobStatus (now : Z) (jobId : string) : JobResult :=
  let jobTimestamp :=
    parseInt (match nth_error (split "_" jobId) 1 with
              | Some part => part
              | None => "undefined"
              end) in
  let jobAge := option_map (fun t => (now - t)%Z) jobTimestamp in
  match jobAge with
  | Some age =>
      if (age <? 5000)%Z
      then mkJobResult processing
             (Some (Math_min 90%Q ((inject_Z age / 5000) * 90)%Q)) None None
      else mkJobResult completed (Some 100%Q)
             (Some ("https://storage.googleapis.com/moddo-models/"
                    ++ jobId ++ ".gltf")) None
  | None =>
      mkJobResult completed (Some 100%Q)
        (Some ("https://storage.googleapis.com/moddo-models/"
               ++ jobId ++ ".gltf")) None
  end.

End EdgeOneClient.

Module ModelRoute.
Import JS EdgeOneClient.

Definition maxAttempts : nat := 12.

(** Model route, lines 256-270: the polling loop.  [clock i] is what
    [Date.now()] returns inside the check that follows [i] waits. *)
Fixpoint pollLoop (clock : nat -> Z) (jobId : string) (fuel attempts : nat)
  (jobResult : option JobResult) : option JobResult * nat :=
  match fuel with
  | O => (jobResult, attempts)
  | S fuel' =>
      if (attempts <? maxAttempts)%nat then
        let jobResult := checkJobStatus (clock attempts) jobId in
        match status jobResult with
        | completed | failed => (Some jobResult, attempts)
        | _ => pollLoop clock jobId fuel' (S attempts) (Some jobResult)
        end
      else (jobResult, attempts)
  end.

Definition truthy (o : option string) : bool :=
  match o with
  | Some (String _ _) => true
  | _ => false
  end.

(** Model route, lines 256-278: the loop and the two tests after it;
    [inl] is the message of the error that is thrown. *)
Definition awaitJob (clock : nat -> Z) (jobId : string)
  : string + JobResult :=
  let '(jobResult, _) := pollLoop clock jobId maxAttempts 0 None in
  match jobResult with
  | None => inl "EdgeOne job failed or timed out"
  | Some r =>
      match status r with
      | failed =>
          inl (if truthy (error r)
               then match error r with Some e => e | None => "" end
               else "EdgeOne job failed or timed out")
      | completed =>
          if truthy (downloadUrl r) then inr r
          else inl "EdgeOne job did not complete successfully"
      | _ => inl "EdgeOne job did not complete successfully"
      end
  end.

(** Model route, lines 288-290: the simulated statistics of the model,
    from three calls of [Math.random()]. *)
Definition simulatedModelData (random1 random2 random3 : number)
  : Model.modelData :=
  Model.mkModelData
    (5000 + Math_floor (random1 * 10000))%Q
    (3000 + Math_floor (random2 * 6000))%Q
    (2 * 1024 * 1024 + Math_floor (random3 * 1024 * 1024))%Q.

End ModelRoute.

(** ** Projects route: product specifications *)

Module Projects.
Import JS Feedback.

Record Dimensions : Type := mkDimensions {
  width : number;
  height : number;
  depth : number
}.

Record PrintSettings : Type := mkPrintSettings {
  layerHeight : number;
  infillPercentage : number;
  supportRequired : bool
}.

Record ProductSpecs : Type := mkProductSpecs {
  dimensions : Dimensions;
  material : MaterialType;
  estimatedWeight : number;
  estimatedPrintTime : number;
  estimatedMaterialCost : number;
  functionality : list string;
  printSettings : PrintSettings
}.

(** [material === 'TPU'] and the like. *)
Definition MaterialType_eqb (a b : MaterialType) : bool :=
  match a, b with
  | PLA, PLA | TPU, TPU | PETG, PETG | ABS, ABS => true
  | _, _ => false
  end.

(** Projects route, lines 867-919.  The products are taken exactly; in
    every case the arguments of [Math.round] are far from a tie, so that
    the rounded values are those of the floating-point products. *)
Definition generateProductSpecs (prompt : string) : ProductSpecs :=
  let dimensions := mkDimensions 100%Q 50%Q 20%Q in
  let material := PLA in
  let functionality := ["Custom designed product"] in
  let lowerPrompt := toLowerCase prompt in
  (* Adjust material based on use case *)
  let material :=
    if includes lowerPrompt "flexible" || includes lowerPrompt "cable"
    then TPU
    else if includes lowerPrompt "durable" || includes lowerPrompt "outdoor"
    then PETG
    else material in
  (* Adjust size based on product type *)
  let '(dimensions, functionality) :=
    if includes lowerPrompt "phone" || includes lowerPrompt "mobile"
    then (mkDimensions 80%Q 150%Q 15%Q,
          ["Phone holder"; "Adjustable viewing angle"])
    else if includes lowerPrompt "organizer" || includes lowerPrompt "storage"
    then (mkDimensions 120%Q 80%Q 30%Q,
          ["Storage compartments"; "Modular design"])
    else if includes lowerPrompt "stand" || includes lowerPrompt "holder"
    then (mkDimensions 100%Q 60%Q 80%Q,
          ["Stable base"; "Ergonomic design"])
    else (dimensions, functionality) in
  (* Calculate estimates based on dimensions and material *)
  let volume :=
    ((width dimensions * height dimensions * depth dimensions) / 1000)%Q in
  let materialDensity :=
    if MaterialType_eqb material TPU then (12 # 10)%Q
    else if MaterialType_eqb material PETG then (127 # 100)%Q
    else (124 # 100)%Q in
  let estimatedWeight :=
    Math_round (volume * materialDensity * (2 # 10))%Q in
  let estimatedPrintTime := Math_round (volume * (25 # 10))%Q in
  let materialCostPerGram :=
    if MaterialType_eqb material TPU then (8 # 100)%Q else (3 # 100)%Q in
  let estimatedMaterialCost :=
    (Math_round ((estimatedWeight * materialCostPerGram) * 100) / 100)%Q in
  mkProductSpecs dimensions material estimatedWeight estimatedPrintTime
    estimatedMaterialCost functionality
    (mkPrintSettings (2 # 10)%Q 20%Q
       (gt (height dimensions) (width dimensions * (15 # 10))%Q)).

End Projects.

(** ** Hooks: the steps of the flow *)

Module Hooks.
Import JS.

(** The state of [useProjectFlow]. *)
Record flow : Type := mkFlow {
  currentStep : number;
  projectId : option string;
  userId : string
}.

(** The initial values of the three [useState] calls. *)
Definition initialFlow : flow := mkFlow 1%Q None "demo-user".

(** Hooks, lines 303-307. *)
Definition goToStep (step : number) (f : flow) : flow :=
  if ge step 1%Q && le step 4%Q
  then mkFlow step (projectId f) (userId f)
  else f.

(** Hooks, lines 312-314. *)
Definition nextStep (f : flow) : flow :=
  mkFlow (Math_min (currentStep f + 1)%Q 4%Q) (projectId f) (userId f).

(** Hooks, lines 319-321. *)
Definition prevStep (f : flow) : flow :=
  mkFlow (Math_max (currentStep f - 1)%Q 1%Q) (projectId f) (userId f).

(** Hooks, lines 326-329. *)
Definition resetFlow (f : flow) : flow :=
  mkFlow 1%Q None (userId f).

(** Hooks, line 334. *)
Definition progressPercentage (f : flow) : number :=
  ((currentStep f / 4) * 100)%Q.

End Hooks.

(** ** Vocabulary of the specification *)

Import JS Feedback.

(** The text has a piece that equals the keyword up to the case of its
    letters. *)
Definition contains_ci (text k : string) : Prop :=
  exists a u b, text = a ++ u ++ b /\ toLowerCase u = toLowerCase k.

Definition matches_any (text : string) (ks : list string) : Prop :=
  exists k, In k ks /\ contains_ci text k.

Definition approvalKeywords : list string :=
  ["perfect"; "looks good"; "approve"; "ready"].

Definition refinementKeywords : list string :=
  ["change"; "adjust"; "make it"; "need"; "should be"; "add"; "remove"].

(** Keyword groups in their fixed order, each with the value it selects. *)
Definition sizeGroups : list (list string * SizeAdjustment) :=
  [ (["bigger"; "larger"; "increase size"], larger);
    (["smaller"; "reduce size"; "compact"], smaller);
    (["wider"; "broader"], wider);
    (["taller"; "higher"], taller) ].

Definition materialGroups : list (list string * MaterialType) :=
  [ (["flexible"; "rubbery"; "tpu"], TPU);
    (["rigid"; "hard"; "pla"], PLA);
    (["durable"; "strong"; "petg"], PETG);
    (["abs"], ABS) ].

Definition functionalGroups : list (list string * string) :=
  [ (["hole"; "opening"], "Add holes or openings");
    (["grip"; "texture"], "Add grip texture");
    (["compartment"; "section"], "Add compartments");
    (["smooth"; "rounded"], "Smooth edges") ].

Definition keywordsOf {A : Type} (groups : list (list string * A))
  : list string :=
  List.concat (map fst groups).

Definition sizeKeywords : list string := keywordsOf sizeGroups.
Definition materialKeywords : list string := keywordsOf materialGroups.
Definition functionalKeywords : list string := keywordsOf functionalGroups.

Definition allKeywords : list string :=
  approvalKeywords ++ refinementKeywords ++
  sizeKeywords ++ materialKeywords ++ functionalKeywords.

(** First match wins: the value of the first group, in list order, one of
    whose keywords the text contains; [None] when no group matches. *)
Inductive FirstMatch {A : Type} (text : string)
  : list (list string * A) -> option A -> Prop :=
| fm_none : FirstMatch text [] None
| fm_hit ks v rest :
    matches_any text ks -> FirstMatch text ((ks, v) :: rest) (Some v)
| fm_skip ks v rest r :
    ~ matches_any text ks -> FirstMatch text rest r ->
    FirstMatch text ((ks, v) :: rest) r.

(** Executable counterparts, on the lowered text. *)
Definition anyOf (lowerText : string) (ks : list string) : bool :=
  existsb (includes lowerText) ks.

Fixpoint firstMatchB {A : Type} (lowerText : string)
  (groups : list (list string * A)) : option A :=
  match groups with
  | [] => None
  | (ks, v) :: rest =>
      if anyOf lowerText ks then Some v else firstMatchB lowerText rest
  end.

Definition allMatchesB {A : Type} (lowerText : string)
  (groups : list (list string * A)) : list A :=
  map snd (filter (fun g => anyOf lowerText (fst g)) groups).

(** A keyword written in lower case, as all of the code's are. *)
Definition lowercase (k : string) : Prop := toLowerCase k = k.

(** The fields of a result, an absent result having none. *)
Definition sizeOf (r : option ExtractedParameters) : option SizeAdjustment :=
  match r with Some p => sizeAdjustment p | None => None end.

Definition materialOf (r : option ExtractedParameters) : option MaterialType :=
  match r with Some p => materialChange p | None => None end.

Definition functionalOf (r : option ExtractedParameters)
  : option (list string) :=
  match r with Some p => functionalChanges p | None => None end.

(** The printability checks as one engine over a table of rules: every
    rule is tried, independently of the others and in the order of the
    table, and the ones that trigger give their issue and their
    recommendation; the default recommendations stand in when none does. *)
Record Rule (S : Type) : Type := mkRule {
  trigger : S -> Prop;
  issue : string;
  recommendation : string
}.

Arguments mkRule {S} _ _ _.
Arguments trigger {S} _ _.
Arguments issue {S} _.
Arguments recommendation {S} _.

Inductive Fired {S : Type} (s : S) : list (Rule S) -> list (Rule S) -> Prop :=
| fired_nil : Fired s [] []
| fired_yes r rs fs :
    trigger r s -> Fired s rs fs -> Fired s (r :: rs) (r :: fs)
| fired_no r rs fs :
    ~ trigger r s -> Fired s rs fs -> Fired s (r :: rs) fs.

Definition Verdict {S : Type} (rules : list (Rule S)) (defaults : list string)
  (s : S) (v : PrintabilityCheck) : Prop :=
  exists fs,
    Fired s rules fs /\
    issues v = map issue fs /\
    match fs with
    | [] => passed v = true /\ recommendations v = defaults
    | _ :: _ => passed v = false /\ recommendations v = map recommendation fs
    end.

(** Configuration A, after the 3D generation. *)
Definition rulesA : list (Rule Model.modelData) :=
  [ mkRule (fun m => (100000 < Model.vertices m)%Q)
      "High vertex count may slow printing"
      "Consider reducing model complexity";
    mkRule (fun m => (10485760 < Model.fileSize m)%Q)
      "Large file size may indicate excessive detail"
      "Optimize mesh for 3D printing" ].

Definition defaultsA : list string :=
  [ "Model appears print-ready";
    "Recommended layer height: 0.2mm";
    "Supports may be needed for overhangs" ].

(** Configuration B, after the STL conversion. *)
Definition rulesB : list (Rule STLConverter.meshData) :=
  [ mkRule (fun m => (STLConverter.volume m < 1)%Q)
      "Model may be too small for reliable printing"
      "Consider scaling up the model";
    mkRule (fun m => (1000 < STLConverter.volume m)%Q)
      "Model may be too large for some 3D printers"
      "Consider scaling down or printing in parts";
    mkRule (fun m => (50000 < STLConverter.faces m)%Q)
      "High face count may cause slicer performance issues"
      "Consider mesh decimation to reduce complexity";
    mkRule (fun m => (STLConverter.faces m < 100)%Q)
      "Low face count may result in blocky appearance"
      "Consider increasing mesh resolution" ].

Definition defaultsB : list string :=
  [ "Model appears optimized for 3D printing";
    "Recommended infill: 15-20%";
    "Recommended layer height: 0.2mm";
    "Consider orientation to minimize supports" ].


(** A keyword that neither starts nor ends with white space. *)
Definition solidStart (k : string) : bool :=
  match k with
  | EmptyString => false
  | String c _ => negb (isWhiteSpace c)
  end.

Fixpoint solidEnd (k : string) : bool :=
  match k with
  | EmptyString => false
  | String c EmptyString => negb (isWhiteSpace c)
  | String _ k' => solidEnd k'
  end.

Definition solid (k : string) : Prop :=
  solidStart k = true /\ solidEnd k = true.

(** The keyword groups of [generateProductSpecs]. *)
Definition specMaterialGroups : list (list string * MaterialType) :=
  [ (["flexible"; "cable"], TPU);
    (["durable"; "outdoor"], PETG) ].

Definition productGroups
  : list (list string * (Projects.Dimensions * list string)) :=
  [ (["phone"; "mobile"],
     (Projects.mkDimensions 80%Q 150%Q 15%Q,
      ["Phone holder"; "Adjustable viewing angle"]));
    (["organizer"; "storage"],
     (Projects.mkDimensions 120%Q 80%Q 30%Q,
      ["Storage compartments"; "Modular design"]));
    (["stand"; "holder"],
     (Projects.mkDimensions 100%Q 60%Q 80%Q,
      ["Stable base"; "Ergonomic design"])) ].

Definition defaultProduct : Projects.Dimensions * list string :=
  (Projects.mkDimensions 100%Q 50%Q 20%Q, ["Custom designed product"]).

(** The estimates of [generateProductSpecs] once the material and the
    product type are chosen. *)
Definition estimateSpecs (material : MaterialType)
  (product : Projects.Dimensions * list string) : Projects.ProductSpecs :=
  let '(dimensions, functionality) := product in
  let volume :=
    ((Projects.width dimensions * Projects.height dimensions
      * Projects.depth dimensions) / 1000)%Q in
  let materialDensity :=
    if Projects.MaterialType_eqb material TPU then (12 # 10)%Q
    else if Projects.MaterialType_eqb material PETG then (127 # 100)%Q
    else (124 # 100)%Q in
  let estimatedWeight :=
    Math_round (volume * materialDensity * (2 # 10))%Q in
  let estimatedPrintTime := Math_round (volume * (25 # 10))%Q in
  let materialCostPerGram :=
    if Projects.MaterialType_eqb material TPU then (8 # 100)%Q
    else (3 # 100)%Q in
  let estimatedMaterialCost :=
    (Math_round ((estimatedWeight * materialCostPerGram) * 100) / 100)%Q in
  Projects.mkProductSpecs dimensions material estimatedWeight
    estimatedPrintTime estimatedMaterialCost functionality
    (Projects.mkPrintSettings (2 # 10)%Q 20%Q
       (gt (Projects.height dimensions)
           (Projects.width dimensions * (15 # 10))%Q)).

Definition orDefault {A : Type} (d : A) (o : option A) : A :=
  match o with Some v => v | None => d end.

(** The code units of a sanitised file name. *)
Definition fileNameChar (c : ascii) : bool :=
  isAlphaNumeric c || Ascii.eqb c "_".

(** The value of a decimal numeral read from the left, [acc] being the
    value of the digits already read. *)
Fixpoint uintValue (d : Decimal.uint) (acc : N) : N :=
  match d with
  | Decimal.Nil => acc
  | Decimal.D0 d => uintValue d (10 * acc)%N
  | Decimal.D1 d => uintValue d (10 * acc + 1)%N
  | Decimal.D2 d => uintValue d (10 * acc + 2)%N
  | Decimal.D3 d => uintValue d (10 * acc + 3)%N
  | Decimal.D4 d => uintValue d (10 * acc + 4)%N
  | Decimal.D5 d => uintValue d (10 * acc + 5)%N
  | Decimal.D6 d => uintValue d (10 * acc + 6)%N
  | Decimal.D7 d => uintValue d (10 * acc + 7)%N
  | Decimal.D8 d => uintValue d (10 * acc + 8)%N
  | Decimal.D9 d => uintValue d (10 * acc + 9)%N
  end.

(** The download address that a completed job reports. *)
Definition modelUrl (jobId : string) : string :=
  "https://storage.googleapis.com/moddo-models/" ++ jobId ++ ".gltf".

(** The operations of the flow hook, and a run of them. *)
Inductive flowAction : Type :=
| GoToStep (step : number)
| NextStep
| PrevStep
| ResetFlow.

Definition applyAction (a : flowAction) (f : Hooks.flow) : Hooks.flow :=
  match a with
  | GoToStep step => Hooks.goToStep step f
  | NextStep => Hooks.nextStep f
  | PrevStep => Hooks.prevStep f
  | ResetFlow => Hooks.resetFlow f
  end.

Definition runActions (acts : list flowAction) (f : Hooks.flow) : Hooks.flow :=
  fold_left (fun st a => applyAction a st) acts f.

(** A step from the first to the fourth. *)
Definition inRange (f : Hooks.flow) : Prop :=
  (1 <= Hooks.currentStep f)%Q /\ (Hooks.currentStep f <= 4)%Q.

(** Every code unit of the string satisfies the test. *)
Fixpoint allChars (p : ascii -> bool) (s : string) : bool :=
  match s with
  | EmptyString => true
  | String c s' => p c && allChars p s'
  end.

(** ** Strings *)

Section Strings.

Lemma prefix_iff (k s : string) :
  String.prefix k s = true <-> exists b, s = k ++ b.
Proof.
  revert s; induction k as [|x k IH]; intros s.
  - split; [intros _; exists s; reflexivity | intros _; now destruct s].
  - destruct s as [|y s]; simpl.
    + split; [discriminate | intros [b Hb]; discriminate].
    + destruct (ascii_dec x y) as [->|Hxy].
      * rewrite IH. split; intros [b Hb]; exists b.
        -- now rewrite Hb.
        -- now inversion Hb.
      * split; [discriminate | intros [b Hb]; simpl in Hb; congruence].
Qed.

Lemma includes_nil (k : string) : includes "" k = String.prefix k "".
Proof. reflexivity. Qed.

Lemma includes_cons (c : ascii) (s k : string) :
  includes (String c s) k = String.prefix k (String c s) || includes s k.
Proof. reflexivity. Qed.

Lemma includes_iff (s k : string) :
  includes s k = true <-> exists a b, s = a ++ k ++ b.
Proof.
  induction s as [|c s IH].
  - rewrite includes_nil, prefix_iff. split.
    + intros [b Hb]. exists "", b. exact Hb.
    + intros [a [b Hab]]. destruct a; [now exists b | discriminate].
  - rewrite includes_cons, orb_true_iff, IH, prefix_iff. split.
    + intros [[b Hb] | [a [b Hab]]].
      * exists "", b. exact Hb.
      * exists (String c a), b. simpl. now rewrite Hab.
    + intros [a [b Hab]]. destruct a as [|x a]; simpl in Hab.
      * left. now exists b.
      * right. inversion Hab. now exists a, b.
Qed.

Lemma toLowerCase_app (a b : string) :
  toLowerCase (a ++ b) = toLowerCase a ++ toLowerCase b.
Proof. induction a as [|x a IH]; simpl; [reflexivity | now rewrite IH]. Qed.

Lemma toLowerCase_split (s x y : string) :
  toLowerCase s = x ++ y ->
  exists s1 s2, s = s1 ++ s2 /\ toLowerCase s1 = x /\ toLowerCase s2 = y.
Proof.
  revert s; induction x as [|c x IH]; intros s H.
  - exists "", s. auto.
  - destruct s as [|d s]; [discriminate|].
    simpl in H. injection H as Hc Hs.
    destruct (IH s Hs) as [s1 [s2 [E [H1 H2]]]].
    exists (String d s1), s2. simpl. rewrite H1, Hc, <- E. auto.
Qed.

Lemma toLowerChar_idem (c : ascii) :
  toLowerChar (toLowerChar c) = toLowerChar c.
Proof. destruct c as [[] [] [] [] [] [] [] []]; reflexivity. Qed.

Lemma toLowerCase_idem (s : string) :
  toLowerCase (toLowerCase s) = toLowerCase s.
Proof.
  induction s as [|c s IH]; simpl; [reflexivity|].
  now rewrite toLowerChar_idem, IH.
Qed.

(** Matching on the lowered text is matching up to case. *)
Lemma contains_ci_iff (text k : string) :
  contains_ci text k <->
  includes (toLowerCase text) (toLowerCase k) = true.
Proof.
  rewrite includes_iff. split.
  - intros [a [u [b [E Hu]]]]. subst text.
    exists (toLowerCase a), (toLowerCase b).
    now rewrite !toLowerCase_app, Hu.
  - intros [a' [b' E]].
    destruct (toLowerCase_split _ _ _ E) as [a [r [Et [Ha Hr]]]].
    destruct (toLowerCase_split _ _ _ Hr) as [u [b [Er [Hu Hb]]]].
    exists a, u, b. subst. auto.
Qed.

Lemma includes_keyword (text k : string) :
  lowercase k ->
  (includes (toLowerCase text) k = true <-> contains_ci text k).
Proof. intros Hk. rewrite contains_ci_iff, Hk. reflexivity. Qed.

Lemma anyOf_iff (text : string) (ks : list string) :
  Forall lowercase ks ->
  (anyOf (toLowerCase text) ks = true <-> matches_any text ks).
Proof.
  intros Hks. unfold anyOf, matches_any. rewrite existsb_exists.
  rewrite Forall_forall in Hks.
  split; intros [k [Hin Hk]]; exists k; split; auto;
    now apply (includes_keyword text k (Hks k Hin)).
Qed.

Lemma anyOf_false_iff (text : string) (ks : list string) :
  Forall lowercase ks ->
  (anyOf (toLowerCase text) ks = false <-> ~ matches_any text ks).
Proof.
  intros Hks. rewrite <- (anyOf_iff text ks Hks).
  destruct (anyOf (toLowerCase text) ks); split; congruence.
Qed.

Lemma anyOf_app (l : string) (ks1 ks2 : list string) :
  anyOf l (ks1 ++ ks2) = anyOf l ks1 || anyOf l ks2.
Proof. apply existsb_app. Qed.

End Strings.

(** ** The keyword matcher in closed form *)

Section Matcher.

Lemma lowercase_approval : Forall lowercase approvalKeywords.
Proof. repeat constructor. Qed.

Lemma lowercase_refinement : Forall lowercase refinementKeywords.
Proof. repeat constructor. Qed.

Lemma lowercase_size :
  Forall (fun g => Forall lowercase (fst g)) sizeGroups.
Proof. repeat constructor. Qed.

Lemma lowercase_material :
  Forall (fun g => Forall lowercase (fst g)) materialGroups.
Proof. repeat constructor. Qed.

Lemma lowercase_functional :
  Forall (fun g => Forall lowercase (fst g)) functionalGroups.
Proof. repeat constructor. Qed.

Lemma lowercase_keywordsOf {A : Type} (groups : list (list string * A)) :
  Forall (fun g => Forall lowercase (fst g)) groups ->
  Forall lowercase (keywordsOf groups).
Proof.
  unfold keywordsOf. induction 1 as [|g gs Hg _ IH]; simpl.
  - constructor.
  - apply Forall_app. split; assumption.
Qed.

(** The first-match function computes the first-match relation. *)
Lemma firstMatchB_sound {A : Type} (text : string)
  (groups : list (list string * A)) :
  Forall (fun g => Forall lowercase (fst g)) groups ->
  FirstMatch text groups (firstMatchB (toLowerCase text) groups).
Proof.
  induction 1 as [|[ks v] gs Hg _ IH]; simpl.
  - constructor.
  - destruct (anyOf (toLowerCase text) ks) eqn:E.
    + apply fm_hit. now apply (anyOf_iff text ks Hg).
    + apply fm_skip; [|exact IH]. now apply (anyOf_false_iff text ks Hg).
Qed.

(** The relation has one outcome. *)
Lemma FirstMatch_functional {A : Type} (text : string)
  (groups : list (list string * A)) (r1 r2 : option A) :
  FirstMatch text groups r1 -> FirstMatch text groups r2 -> r1 = r2.
Proof.
  intros H1; revert r2.
  induction H1 as [|ks v rest Hm|ks v rest r Hn _ IH]; intros r2 H2;
    inversion H2; subst; auto; contradiction.
Qed.

Lemma firstMatchB_none {A : Type} (l : string)
  (groups : list (list string * A)) :
  firstMatchB l groups = None <-> anyOf l (keywordsOf groups) = false.
Proof.
  unfold keywordsOf. induction groups as [|[ks v] gs IH]; simpl.
  - split; reflexivity.
  - rewrite anyOf_app, orb_false_iff, <- IH.
    destruct (anyOf l ks); intuition congruence.
Qed.

Lemma allMatchesB_nil {A : Type} (l : string)
  (groups : list (list string * A)) :
  allMatchesB l groups = [] <-> anyOf l (keywordsOf groups) = false.
Proof.
  unfold keywordsOf, allMatchesB.
  induction groups as [|[ks v] gs IH]; simpl.
  - split; reflexivity.
  - rewrite anyOf_app, orb_false_iff, <- IH.
    destruct (anyOf l ks); simpl; intuition congruence.
Qed.

Lemma firstMatchB_none_iff {A : Type} (text : string)
  (groups : list (list string * A)) :
  Forall (fun g => Forall lowercase (fst g)) groups ->
  (firstMatchB (toLowerCase text) groups = None <->
   ~ matches_any text (keywordsOf groups)).
Proof.
  intros H. rewrite firstMatchB_none.
  apply anyOf_false_iff, lowercase_keywordsOf, H.
Qed.

Lemma allMatchesB_nil_iff {A : Type} (text : string)
  (groups : list (list string * A)) :
  Forall (fun g => Forall lowercase (fst g)) groups ->
  (allMatchesB (toLowerCase text) groups = [] <->
   ~ matches_any text (keywordsOf groups)).
Proof.
  intros H. rewrite allMatchesB_nil.
  apply anyOf_false_iff, lowercase_keywordsOf, H.
Qed.

(** [determineFeedbackType] is a two-level decision list. *)
Lemma determineFeedbackType_eq (text : string) :
  determineFeedbackType text =
  if anyOf (toLowerCase text) approvalKeywords then approval
  else if anyOf (toLowerCase text) refinementKeywords
       then refinement_request
       else comment.
Proof.
  unfold determineFeedbackType, anyOf, approvalKeywords, refinementKeywords.
  cbn [existsb]. rewrite !orb_false_r, !orb_assoc. reflexivity.
Qed.

(** The three outcomes of the decision list. *)
Lemma determineFeedbackType_cases (text : string) :
  (determineFeedbackType text = approval <->
     matches_any text approvalKeywords) /\
  (determineFeedbackType text = refinement_request <->
     ~ matches_any text approvalKeywords /\
     matches_any text refinementKeywords) /\
  (determineFeedbackType text = comment <->
     ~ matches_any text approvalKeywords /\
     ~ matches_any text refinementKeywords).
Proof.
  rewrite determineFeedbackType_eq.
  rewrite <- (anyOf_false_iff text _ lowercase_approval).
  rewrite <- (anyOf_false_iff text _ lowercase_refinement).
  rewrite <- (anyOf_iff text _ lowercase_approval).
  rewrite <- (anyOf_iff text _ lowercase_refinement).
  destruct (anyOf (toLowerCase text) approvalKeywords);
    destruct (anyOf (toLowerCase text) refinementKeywords);
    intuition congruence.
Qed.

(** The object [extractFeedbackParameters] builds, and when it returns it:
    the size and the material by first match, the functional labels of
    all matching groups. *)
Lemma extractFeedbackParameters_eq (text : string) :
  extractFeedbackParameters text =
  let l := toLowerCase text in
  let s := firstMatchB l sizeGroups in
  let m := firstMatchB l materialGroups in
  let f := allMatchesB l functionalGroups in
  match s, m, f with
  | None, None, [] => None
  | _, _, _ =>
      Some (mkParameters s m (match f with [] => None | _ => Some f end))
  end.
Proof.
  unfold extractFeedbackParameters, allMatchesB, anyOf.
  unfold sizeGroups, materialGroups, functionalGroups.
  cbn [firstMatchB anyOf existsb filter map fst snd].
  unfold anyOf. cbn [existsb]. cbv zeta.
  rewrite !orb_false_r, !orb_assoc.
  generalize (toLowerCase text) as l. intros l.
  repeat match goal with
  | |- context [if ?c then _ else _] =>
      lazymatch c with
      | orb _ _ => destruct c; cbn
      | includes _ _ => destruct c; cbn
      end
  end; reflexivity.
Qed.

End Matcher.

(** ** Properties of the feedback classifier *)

(** C1.  A text that contains, up to case, one of the approval keywords
    "perfect", "looks good", "approve", "ready" is classified as
    [approval]; nothing is asked of the refinement keywords, which are only
    looked at after the approval check has failed, so the result is the
    same when the text contains some of them too. *)
Theorem determineFeedbackType_approval_first (text : string) :
  matches_any text approvalKeywords ->
  determineFeedbackType text = approval.
Proof.
  intros H. rewrite determineFeedbackType_eq.
  apply (anyOf_iff text _ lowercase_approval) in H. now rewrite H.
Qed.

(** "Perfect, but please add a hole" matches both keyword sets. *)
Lemma determineFeedbackType_approval_first_witness :
  matches_any "Perfect, but please add a hole" approvalKeywords /\
  matches_any "Perfect, but please add a hole" refinementKeywords /\
  determineFeedbackType "Perfect, but please add a hole" = approval.
Proof.
  assert (Ha : matches_any "Perfect, but please add a hole" approvalKeywords)
    by (apply (anyOf_iff _ _ lowercase_approval); vm_compute; reflexivity).
  split; [exact Ha | split].
  - apply (anyOf_iff _ _ lowercase_refinement); vm_compute; reflexivity.
  - exact (determineFeedbackType_approval_first _ Ha).
Defined.

(** C5.  The result is absent exactly when no size, material or functional
    keyword matched; a present result is never the empty object; and the
    [functionalChanges] property is not assigned when no functional keyword
    matched, and is never an empty list. *)
Theorem extractFeedbackParameters_absent_iff (text : string) :
  (extractFeedbackParameters text = None <->
     ~ matches_any text sizeKeywords /\
     ~ matches_any text materialKeywords /\
     ~ matches_any text functionalKeywords) /\
  extractFeedbackParameters text <> Some emptyObject /\
  (~ matches_any text functionalKeywords ->
     functionalOf (extractFeedbackParameters text) = None) /\
  functionalOf (extractFeedbackParameters text) <> Some [].
Proof.
  pose proof (firstMatchB_none_iff text _ lowercase_size) as Hs.
  pose proof (firstMatchB_none_iff text _ lowercase_material) as Hm.
  pose proof (allMatchesB_nil_iff text _ lowercase_functional) as Hf.
  fold sizeKeywords in Hs. fold materialKeywords in Hm.
  fold functionalKeywords in Hf.
  rewrite extractFeedbackParameters_eq. cbv zeta.
  destruct (firstMatchB (toLowerCase text) sizeGroups) as [s|];
    destruct (firstMatchB (toLowerCase text) materialGroups) as [m|];
    destruct (allMatchesB (toLowerCase text) functionalGroups) as [|f fs];
    unfold emptyObject; simpl; intuition congruence.
Qed.

(** "Make it bigger" names a size and no functional change. *)
Lemma extractFeedbackParameters_absent_iff_witness :
  ~ matches_any "Make it bigger" functionalKeywords /\
  functionalOf (extractFeedbackParameters "Make it bigger") = None.
Proof.
  assert (H : ~ matches_any "Make it bigger" functionalKeywords).
  { apply anyOf_false_iff.
    - apply lowercase_keywordsOf, lowercase_functional.
    - vm_compute. reflexivity. }
  split; [exact H |].
  exact (proj1 (proj2 (proj2
           (extractFeedbackParameters_absent_iff "Make it bigger"))) H).
Defined.

(** C6.  The size adjustment and the material change of the result are
    each the value of the first keyword group, in the fixed order, that
    the text matches (at most one each, [None] when no group matches); a
    text that contains both "bigger" and "wider" gets [larger]. *)
Theorem extractFeedbackParameters_first_match (text : string) :
  FirstMatch text sizeGroups (sizeOf (extractFeedbackParameters text)) /\
  FirstMatch text materialGroups
    (materialOf (extractFeedbackParameters text)) /\
  (contains_ci text "bigger" -> contains_ci text "wider" ->
   sizeOf (extractFeedbackParameters text) = Some larger).
Proof.
  pose proof (firstMatchB_sound text sizeGroups lowercase_size) as Hs.
  pose proof (firstMatchB_sound text materialGroups lowercase_material) as Hm.
  assert (E : sizeOf (extractFeedbackParameters text)
              = firstMatchB (toLowerCase text) sizeGroups /\
              materialOf (extractFeedbackParameters text)
              = firstMatchB (toLowerCase text) materialGroups).
  { rewrite extractFeedbackParameters_eq. cbv zeta.
    destruct (firstMatchB (toLowerCase text) sizeGroups);
      destruct (firstMatchB (toLowerCase text) materialGroups);
      destruct (allMatchesB (toLowerCase text) functionalGroups);
      simpl; auto. }
  destruct E as [Es Em]. rewrite Es, Em.
  split; [exact Hs | split; [exact Hm |]].
  intros Hb _.
  apply (FirstMatch_functional text sizeGroups); [exact Hs |].
  apply fm_hit. exists "bigger". split; [simpl; auto | exact Hb].
Qed.

(** "bigger and wider" matches the first and the third size group, and
    "strong ABS" the third and the fourth material group. *)
Lemma extractFeedbackParameters_first_match_witness :
  contains_ci "Bigger and wider, in strong ABS" "bigger" /\
  contains_ci "Bigger and wider, in strong ABS" "wider" /\
  sizeOf (extractFeedbackParameters "Bigger and wider, in strong ABS")
    = Some larger.
Proof.
  assert (Hb : contains_ci "Bigger and wider, in strong ABS" "bigger")
    by (apply contains_ci_iff; vm_compute; reflexivity).
  assert (Hw : contains_ci "Bigger and wider, in strong ABS" "wider")
    by (apply contains_ci_iff; vm_compute; reflexivity).
  split; [exact Hb | split; [exact Hw |]].
  exact (proj2 (proj2 (extractFeedbackParameters_first_match _)) Hb Hw).
Defined.

(** C7.  A text that contains none of the keywords of any set is a
    [comment] and yields no parameters. *)
Theorem no_keyword_comment_absent (text : string) :
  (forall k, In k allKeywords -> ~ contains_ci text k) ->
  determineFeedbackType text = comment /\
  extractFeedbackParameters text = None.
Proof.
  intros H.
  assert (N : forall ks, incl ks allKeywords -> Forall lowercase ks ->
              anyOf (toLowerCase text) ks = false).
  { intros ks Hin Hl. apply (anyOf_false_iff text ks Hl).
    intros [k [Hk Hc]]. exact (H k (Hin k Hk) Hc). }
  split.
  - rewrite determineFeedbackType_eq.
    rewrite (N approvalKeywords), (N refinementKeywords);
      auto using lowercase_approval, lowercase_refinement;
      unfold allKeywords; auto using incl_appl, incl_appr, incl_refl.
  - rewrite extractFeedbackParameters_eq. cbv zeta.
    assert (Hs : firstMatchB (toLowerCase text) sizeGroups = None).
    { apply firstMatchB_none, N.
      - unfold allKeywords. fold sizeKeywords.
        auto using incl_appl, incl_appr, incl_refl.
      - apply lowercase_keywordsOf, lowercase_size. }
    assert (Hm : firstMatchB (toLowerCase text) materialGroups = None).
    { apply firstMatchB_none, N.
      - unfold allKeywords. fold materialKeywords.
        auto using incl_appl, incl_appr, incl_refl.
      - apply lowercase_keywordsOf, lowercase_material. }
    assert (Hf : allMatchesB (toLowerCase text) functionalGroups = []).
    { apply allMatchesB_nil, N.
      - unfold allKeywords. fold functionalKeywords.
        auto using incl_appl, incl_appr, incl_refl.
      - apply lowercase_keywordsOf, lowercase_functional. }
    now rewrite Hs, Hm, Hf.
Qed.

(** "Thanks, I like the colour" holds no keyword at all. *)
Lemma no_keyword_comment_absent_witness :
  (forall k, In k allKeywords -> ~ contains_ci "Thanks, I like the colour" k) /\
  determineFeedbackType "Thanks, I like the colour" = comment /\
  extractFeedbackParameters "Thanks, I like the colour" = None.
Proof.
  assert (H : forall k, In k allKeywords ->
                ~ contains_ci "Thanks, I like the colour" k).
  { intros k Hin. rewrite contains_ci_iff.
    vm_compute in Hin.
    repeat (destruct Hin as [<- | Hin]; [vm_compute; discriminate |]).
    destruct Hin. }
  split; [exact H | exact (no_keyword_comment_absent _ H)].
Defined.

(** C8.  The example of the README: "Make it bigger and use flexible
    material" gives a parameter object with [sizeAdjustment = larger] and
    [materialChange = TPU], and no [functionalChanges] property. *)
Theorem extractFeedbackParameters_readme_example :
  extractFeedbackParameters "Make it bigger and use flexible material"
  = Some (mkParameters (Some larger) (Some TPU) None).
Proof. vm_compute. reflexivity. Qed.

(** C9.  The parameters do not depend on the case of the text: the text
    and its lower-case form give the same result. *)
Theorem extractFeedbackParameters_case_invariant (text : string) :
  extractFeedbackParameters text
  = extractFeedbackParameters (toLowerCase text).
Proof.
  unfold extractFeedbackParameters. rewrite toLowerCase_idem. reflexivity.
Qed.

(** ** The printability checks against the rule engine *)

Section Printability.

Lemma lt_iff (a b : number) : lt a b = true <-> (a < b)%Q.
Proof. unfold lt, Qlt. apply Z.ltb_lt. Qed.

Lemma lt_false_iff (a b : number) : lt a b = false <-> ~ (a < b)%Q.
Proof.
  rewrite <- lt_iff. destruct (lt a b); split; congruence.
Qed.

Lemma gt_iff (a b : number) : gt a b = true <-> (b < a)%Q.
Proof. apply lt_iff. Qed.

Lemma gt_false_iff (a b : number) : gt a b = false <-> ~ (b < a)%Q.
Proof. apply lt_false_iff. Qed.

Lemma gt_false_le (a b : number) : gt a b = false <-> (a <= b)%Q.
Proof.
  rewrite gt_false_iff. split; [apply Qnot_lt_le | apply Qle_not_lt].
Qed.

Ltac fire :=
  repeat first
    [ apply fired_nil
    | apply fired_yes;
      [ first [ now apply lt_iff | now apply gt_iff ] | ]
    | apply fired_no;
      [ first [ now apply lt_false_iff | now apply gt_false_iff ] | ] ].

Lemma analyzePrintability_Verdict (m : Model.modelData) :
  Verdict rulesA defaultsA m (Model.analyzePrintability m).
Proof.
  unfold Verdict, Model.analyzePrintability, rulesA.
  destruct (gt (Model.vertices m) (100000 # 1)%Q) eqn:E1;
    destruct (gt (Model.fileSize m) (10 * 1024 * 1024)%Q) eqn:E2;
    cbn; eexists; (split; [fire | cbn; auto]).
Qed.

Lemma validateForPrinting_Verdict (m : STLConverter.meshData) :
  Verdict rulesB defaultsB m (STLConverter.validateForPrinting m).
Proof.
  unfold Verdict, STLConverter.validateForPrinting, rulesB.
  destruct (lt (STLConverter.volume m) (1 # 1)%Q) eqn:E1;
    destruct (gt (STLConverter.volume m) (1000 # 1)%Q) eqn:E2;
    destruct (gt (STLConverter.faces m) (50000 # 1)%Q) eqn:E3;
    destruct (lt (STLConverter.faces m) (100 # 1)%Q) eqn:E4;
    cbn; eexists; (split; [fire | cbn; auto]).
Qed.

(** What a verdict of the engine always satisfies. *)
Lemma Verdict_passed_iff {S : Type} (rules : list (Rule S))
  (defaults : list string) (s : S) (v : PrintabilityCheck) :
  Verdict rules defaults s v -> (passed v = true <-> issues v = []).
Proof.
  intros [fs [_ [Hi Hr]]]. rewrite Hi.
  destruct fs as [|r fs]; simpl; destruct Hr as [Hp _]; rewrite Hp;
    split; congruence.
Qed.

(** The fired rules are the rules of the table that trigger. *)
Lemma Fired_In {S : Type} (s : S) (rules fs : list (Rule S)) :
  Fired s rules fs ->
  forall r, In r fs -> In r rules /\ trigger r s.
Proof.
  induction 1 as [|r0 rs fs Ht _ IH|r0 rs fs Hn _ IH]; intros r Hin.
  - destruct Hin.
  - destruct Hin as [<-|Hin]; [split; [left; reflexivity | exact Ht]|].
    destruct (IH r Hin). split; [right|]; assumption.
  - destruct (IH r Hin). split; [right|]; assumption.
Qed.

Lemma Fired_none {S : Type} (s : S) (rules fs : list (Rule S)) :
  Fired s rules fs ->
  (forall r, In r rules -> ~ trigger r s) -> fs = [].
Proof.
  intros HF Hno. destruct fs as [|r fs]; [reflexivity|].
  destruct (Fired_In s rules _ HF r (or_introl eq_refl)) as [Hin Ht].
  destruct (Hno r Hin Ht).
Qed.

Lemma Verdict_defaults {S : Type} (rules : list (Rule S))
  (defaults : list string) (s : S) (v : PrintabilityCheck) :
  Verdict rules defaults s v ->
  (forall r, In r rules -> ~ trigger r s) ->
  issues v = [] /\ recommendations v = defaults.
Proof.
  intros [fs [HF [Hi Hr]]] Hno.
  rewrite (Fired_none s rules fs HF Hno) in Hi, Hr.
  destruct Hr. auto.
Qed.

(** Issues and recommendations of a verdict go in pairs, one pair per
    fired rule, unless there is no issue. *)
Lemma Verdict_parallel {S : Type} (rules : list (Rule S))
  (defaults : list string) (s : S) (v : PrintabilityCheck) :
  Verdict rules defaults s v ->
  defaults <> [] ->
  recommendations v <> [] /\
  (issues v <> [] ->
   List.length (recommendations v) = List.length (issues v) /\
   exists fs, Fired s rules fs /\
     issues v = map issue fs /\
     recommendations v = map recommendation fs).
Proof.
  intros [fs [HF [Hi Hr]]] Hd.
  destruct fs as [|r fs]; destruct Hr as [_ Hr]; rewrite Hi, Hr.
  - split; [exact Hd | intros H; now destruct H].
  - split; [discriminate | intros _; split].
    + now rewrite !length_map.
    + exists (r :: fs). auto.
Qed.

End Printability.

(** ** Properties of the printability checks *)

(** C2.  The check after the STL conversion is the rule engine on the four
    rules of configuration B, in their order: volume < 1, volume > 1000,
    faces > 50000, faces < 100, each with its issue and its recommendation;
    when no rule triggers there is no issue and the recommendations are
    the four defaults; and for 5000 vertices, 200 faces and a volume of
    0.5 the check fails with the too-small issue as its only issue. *)
Theorem validateForPrinting_rules (m : STLConverter.meshData) :
  let v := STLConverter.validateForPrinting m in
  Verdict rulesB defaultsB m v /\
  ((forall r, In r rulesB -> ~ trigger r m) ->
   issues v = [] /\ recommendations v = defaultsB) /\
  (let e := STLConverter.validateForPrinting
              (STLConverter.mkMeshData (5000 # 1)%Q (200 # 1)%Q (1 # 2)%Q) in
   passed e = false /\
   issues e = ["Model may be too small for reliable printing"]).
Proof.
  cbv zeta. split; [apply validateForPrinting_Verdict | split].
  - apply Verdict_defaults, validateForPrinting_Verdict.
  - vm_compute. auto.
Qed.

(** 5000 vertices, 200 faces and 15 cubic centimetres: no rule triggers. *)
Lemma validateForPrinting_rules_witness :
  let m := STLConverter.mkMeshData (5000 # 1)%Q (200 # 1)%Q (15 # 1)%Q in
  (forall r, In r rulesB -> ~ trigger r m) /\
  issues (STLConverter.validateForPrinting m) = [] /\
  recommendations (STLConverter.validateForPrinting m) = defaultsB.
Proof.
  cbv zeta.
  assert (H : forall r, In r rulesB ->
    ~ trigger r (STLConverter.mkMeshData (5000 # 1)%Q (200 # 1)%Q (15 # 1)%Q)).
  { intros r [<- | [<- | [<- | [<- | []]]]]; vm_compute; discriminate. }
  split; [exact H |].
  exact (proj1 (proj2 (validateForPrinting_rules _)) H).
Defined.

(** C3.  The check after the 3D generation passes exactly when the vertex
    count is at most 100000 and the file size at most 10485760 bytes; it
    is the rule engine on the two rules of configuration A, vertices >
    100000 and fileSize > 10485760, each with its issue and its
    recommendation; when neither triggers the recommendations are the
    three defaults alone. *)
Theorem analyzePrintability_rules (m : Model.modelData) :
  let v := Model.analyzePrintability m in
  (passed v = true <->
   (Model.vertices m <= 100000)%Q /\ (Model.fileSize m <= 10485760)%Q) /\
  Verdict rulesA defaultsA m v /\
  ((forall r, In r rulesA -> ~ trigger r m) ->
   issues v = [] /\ recommendations v = defaultsA).
Proof.
  cbv zeta. split; [| split].
  - rewrite <- (gt_false_le (Model.vertices m) 100000%Q).
    rewrite <- (gt_false_le (Model.fileSize m) 10485760%Q).
    change 10485760%Q with (10 * 1024 * 1024)%Q.
    unfold Model.analyzePrintability.
    destruct (gt (Model.vertices m) (100000 # 1)%Q);
      destruct (gt (Model.fileSize m) (10 * 1024 * 1024)%Q);
      cbn; intuition congruence.
  - apply analyzePrintability_Verdict.
  - apply Verdict_defaults, analyzePrintability_Verdict.
Qed.

(** 50000 vertices in a file of 1000000 bytes: neither rule triggers. *)
Lemma analyzePrintability_rules_witness :
  let m := Model.mkModelData (50000 # 1)%Q (90000 # 1)%Q (1000000 # 1)%Q in
  (forall r, In r rulesA -> ~ trigger r m) /\
  issues (Model.analyzePrintability m) = [] /\
  recommendations (Model.analyzePrintability m) = defaultsA.
Proof.
  cbv zeta.
  assert (H : forall r, In r rulesA ->
    ~ trigger r
        (Model.mkModelData (50000 # 1)%Q (90000 # 1)%Q (1000000 # 1)%Q)).
  { intros r [<- | [<- | []]]; vm_compute; discriminate. }
  split; [exact H |].
  exact (proj2 (proj2 (analyzePrintability_rules _)) H).
Defined.

(** C4.  Both checks return a verdict on all numbers, negative and zero
    included, and the verdict has [passed = true] exactly when its list
    of issues is empty. *)
Theorem passed_iff_no_issues :
  (forall m : Model.modelData,
     exists v, Model.analyzePrintability m = v /\
               (passed v = true <-> issues v = [])) /\
  (forall m : STLConverter.meshData,
     exists v, STLConverter.validateForPrinting m = v /\
               (passed v = true <-> issues v = [])).
Proof.
  split; intros m; eexists; (split; [reflexivity |]).
  - exact (Verdict_passed_iff _ _ _ _ (analyzePrintability_Verdict m)).
  - exact (Verdict_passed_iff _ _ _ _ (validateForPrinting_Verdict m)).
Qed.

(** C10.  In both checks the recommendations are never empty, and when
    there are issues there are as many recommendations as issues, the
    i-th issue and the i-th recommendation being those of the i-th rule
    that fired. *)
Theorem recommendations_follow_issues :
  (forall m : Model.modelData,
     let v := Model.analyzePrintability m in
     recommendations v <> [] /\
     (issues v <> [] ->
      List.length (recommendations v) = List.length (issues v) /\
      exists fs, Fired m rulesA fs /\
        issues v = map issue fs /\
        recommendations v = map recommendation fs)) /\
  (forall m : STLConverter.meshData,
     let v := STLConverter.validateForPrinting m in
     recommendations v <> [] /\
     (issues v <> [] ->
      List.length (recommendations v) = List.length (issues v) /\
      exists fs, Fired m rulesB fs /\
        issues v = map issue fs /\
        recommendations v = map recommendation fs)).
Proof.
  split; intros m; cbv zeta.
  - apply (Verdict_parallel rulesA defaultsA);
      [apply analyzePrintability_Verdict | discriminate].
  - apply (Verdict_parallel rulesB defaultsB);
      [apply validateForPrinting_Verdict | discriminate].
Qed.

(** A model of 200000 vertices in a file of 20 MiB breaks both rules of
    configuration A. *)
Lemma recommendations_follow_issues_witness :
  let v := Model.analyzePrintability
             (Model.mkModelData (200000 # 1)%Q (90000 # 1)%Q (20971520 # 1)%Q)
  in
  issues v <> [] /\
  List.length (recommendations v) = List.length (issues v).
Proof.
  cbv zeta.
  assert (H : issues (Model.analyzePrintability
             (Model.mkModelData (200000 # 1)%Q (90000 # 1)%Q (20971520 # 1)%Q))
              <> []) by (vm_compute; discriminate).
  split; [exact H |].
  exact (proj1 (proj2 (proj1 recommendations_follow_issues _) H)).
Defined.

(** The checks on zero and on negative statistics. *)
Example analyzePrintability_nonpositive :
  Model.analyzePrintability (Model.mkModelData 0%Q (-3 # 1)%Q (-1 # 1)%Q)
  = mkCheck true [] defaultsA.
Proof. reflexivity. Qed.

Example validateForPrinting_nonpositive :
  STLConverter.validateForPrinting
    (STLConverter.mkMeshData 0%Q 0%Q (-2 # 1)%Q)
  = mkCheck false
      [ "Model may be too small for reliable printing";
        "Low face count may result in blocky appearance" ]
      [ "Consider scaling up the model";
        "Consider increasing mesh resolution" ].
Proof. reflexivity. Qed.



(** ** More on strings: trimming and extending a text *)

Section Trim.

Lemma string_app_assoc (a b c : string) : (a ++ b) ++ c = a ++ b ++ c.
Proof. induction a as [|x a IH]; simpl; [reflexivity | now rewrite IH]. Qed.

Lemma isWhiteSpace_toLowerChar (c : ascii) :
  isWhiteSpace (toLowerChar c) = isWhiteSpace c.
Proof. destruct c as [[] [] [] [] [] [] [] []]; reflexivity. Qed.

Lemma toLowerCase_trimStart (s : string) :
  toLowerCase (trimStart s) = trimStart (toLowerCase s).
Proof.
  induction s as [|c s IH]; simpl; [reflexivity|].
  rewrite isWhiteSpace_toLowerChar.
  destruct (isWhiteSpace c); [exact IH | reflexivity].
Qed.

Lemma toLowerCase_trimEnd (s : string) :
  toLowerCase (trimEnd s) = trimEnd (toLowerCase s).
Proof.
  induction s as [|c s IH]; simpl; [reflexivity|].
  rewrite <- IH, isWhiteSpace_toLowerChar.
  destruct (trimEnd s) as [|d t]; simpl.
  - destruct (isWhiteSpace c); reflexivity.
  - reflexivity.
Qed.

Lemma toLowerCase_trim (s : string) :
  toLowerCase (trim s) = trim (toLowerCase s).
Proof.
  unfold trim. now rewrite toLowerCase_trimEnd, toLowerCase_trimStart.
Qed.

Lemma prefix_nil_r (k : string) :
  String.prefix k "" = match k with "" => true | _ => false end.
Proof. destruct k; reflexivity. Qed.

Lemma prefix_cons (a c : ascii) (k s : string) :
  String.prefix (String a k) (String c s)
  = Ascii.eqb a c && String.prefix k s.
Proof.
  simpl. destruct (ascii_dec a c) as [->|H].
  - now rewrite Ascii.eqb_refl.
  - apply Ascii.eqb_neq in H. now rewrite H.
Qed.

Lemma includes_trimStart (s k : string) :
  solidStart k = true -> includes (trimStart s) k = includes s k.
Proof.
  intros Hk. induction s as [|c s IH]; [reflexivity|].
  cbn [trimStart]. destruct (isWhiteSpace c) eqn:Hc; [|reflexivity].
  rewrite IH, includes_cons.
  destruct k as [|a k]; [discriminate|].
  rewrite prefix_cons.
  destruct (Ascii.eqb a c) eqn:E; [|reflexivity].
  apply Ascii.eqb_eq in E. subst a. simpl in Hk. rewrite Hc in Hk.
  discriminate.
Qed.

Lemma trimEnd_cons (c : ascii) (s : string) :
  trimEnd (String c s)
  = match trimEnd s with
    | "" => if isWhiteSpace c then "" else String c ""
    | t => String c t
    end.
Proof. reflexivity. Qed.

Lemma prefix_nil_l (s : string) : String.prefix "" s = true.
Proof. destruct s; reflexivity. Qed.

Lemma prefix_trimEnd (k s : string) :
  solidEnd k = true -> String.prefix k (trimEnd s) = String.prefix k s.
Proof.
  revert k. induction s as [|c s IH]; intros k Hk; [reflexivity|].
  destruct k as [|a k]; [discriminate|].
  rewrite prefix_cons, trimEnd_cons.
  destruct k as [|b k].
  - (* the keyword is its last character *)
    simpl in Hk. rewrite prefix_nil_l.
    destruct (trimEnd s) as [|d t].
    + destruct (isWhiteSpace c) eqn:Hc.
      * rewrite prefix_nil_r.
        destruct (Ascii.eqb a c) eqn:E; [|reflexivity].
        apply Ascii.eqb_eq in E. subst a. rewrite Hc in Hk. discriminate.
      * now rewrite prefix_cons, prefix_nil_l.
    + now rewrite prefix_cons, prefix_nil_l.
  - assert (Hk' : solidEnd (String b k) = true) by exact Hk.
    specialize (IH _ Hk').
    destruct (trimEnd s) as [|d t].
    + rewrite <- IH, prefix_nil_r, andb_false_r.
      destruct (isWhiteSpace c); [reflexivity|].
      rewrite prefix_cons, prefix_nil_r. now rewrite andb_false_r.
    + now rewrite prefix_cons, IH.
Qed.

Lemma solidEnd_nonempty (k : string) : solidEnd k = true -> k <> "".
Proof. destruct k; [discriminate | discriminate]. Qed.

Lemma includes_trimEnd (s k : string) :
  solidEnd k = true -> includes (trimEnd s) k = includes s k.
Proof.
  intros Hk. induction s as [|c s IH]; [reflexivity|].
  rewrite includes_cons, <- (prefix_trimEnd k (String c s) Hk), <- IH.
  rewrite trimEnd_cons.
  destruct (trimEnd s) as [|d t].
  - destruct (isWhiteSpace c).
    + rewrite includes_nil, orb_diag. reflexivity.
    + rewrite includes_cons, includes_nil. reflexivity.
  - rewrite includes_cons. reflexivity.
Qed.

Lemma includes_lower_trim (s k : string) :
  solid k ->
  includes (toLowerCase (trim s)) k = includes (toLowerCase s) k.
Proof.
  intros [Hs He]. rewrite toLowerCase_trim. unfold trim.
  now rewrite includes_trimEnd, includes_trimStart.
Qed.

Lemma anyOf_lower_trim (s : string) (ks : list string) :
  Forall solid ks ->
  anyOf (toLowerCase (trim s)) ks = anyOf (toLowerCase s) ks.
Proof.
  unfold anyOf. induction 1 as [|k ks Hk _ IH]; simpl; [reflexivity|].
  now rewrite IH, includes_lower_trim.
Qed.

Lemma firstMatchB_lower_trim {A : Type} (s : string)
  (groups : list (list string * A)) :
  Forall (fun g => Forall solid (fst g)) groups ->
  firstMatchB (toLowerCase (trim s)) groups
  = firstMatchB (toLowerCase s) groups.
Proof.
  induction 1 as [|[ks v] gs Hg _ IH]; simpl; [reflexivity|].
  now rewrite IH, (anyOf_lower_trim s ks Hg).
Qed.

Lemma allMatchesB_lower_trim {A : Type} (s : string)
  (groups : list (list string * A)) :
  Forall (fun g => Forall solid (fst g)) groups ->
  allMatchesB (toLowerCase (trim s)) groups
  = allMatchesB (toLowerCase s) groups.
Proof.
  unfold allMatchesB.
  induction 1 as [|[ks v] gs Hg _ IH]; [reflexivity|].
  cbn [filter fst]. rewrite (anyOf_lower_trim s ks Hg).
  destruct (anyOf (toLowerCase s) ks); cbn [map snd]; now rewrite IH.
Qed.

End Trim.

(** ** Further facts on the keyword matcher *)

Section MatcherFacts.

Lemma solid_approval : Forall solid approvalKeywords.
Proof. repeat constructor. Qed.

Lemma solid_refinement : Forall solid refinementKeywords.
Proof. repeat constructor. Qed.

Lemma solid_size : Forall (fun g => Forall solid (fst g)) sizeGroups.
Proof. repeat constructor. Qed.

Lemma solid_material : Forall (fun g => Forall solid (fst g)) materialGroups.
Proof. repeat constructor. Qed.

Lemma solid_functional :
  Forall (fun g => Forall solid (fst g)) functionalGroups.
Proof. repeat constructor. Qed.


Lemma sizeOf_extract (text : string) :
  sizeOf (extractFeedbackParameters text)
  = firstMatchB (toLowerCase text) sizeGroups.
Proof.
  rewrite extractFeedbackParameters_eq. cbv zeta.
  destruct (firstMatchB (toLowerCase text) sizeGroups);
    destruct (firstMatchB (toLowerCase text) materialGroups);
    destruct (allMatchesB (toLowerCase text) functionalGroups);
    reflexivity.
Qed.

Lemma materialOf_extract (text : string) :
  materialOf (extractFeedbackParameters text)
  = firstMatchB (toLowerCase text) materialGroups.
Proof.
  rewrite extractFeedbackParameters_eq. cbv zeta.
  destruct (firstMatchB (toLowerCase text) sizeGroups);
    destruct (firstMatchB (toLowerCase text) materialGroups);
    destruct (allMatchesB (toLowerCase text) functionalGroups);
    reflexivity.
Qed.


Lemma extract_present_iff (text : string) :
  extractFeedbackParameters text <> None <->
  matches_any text sizeKeywords \/ matches_any text materialKeywords \/
  matches_any text functionalKeywords.
Proof.
  pose proof (lowercase_keywordsOf _ lowercase_size) as Ls.
  pose proof (lowercase_keywordsOf _ lowercase_material) as Lm.
  pose proof (lowercase_keywordsOf _ lowercase_functional) as Lf.
  unfold sizeKeywords, materialKeywords, functionalKeywords.
  rewrite <- (anyOf_iff text _ Ls), <- (anyOf_iff text _ Lm),
    <- (anyOf_iff text _ Lf).
  pose proof (firstMatchB_none (toLowerCase text) sizeGroups) as Hs.
  pose proof (firstMatchB_none (toLowerCase text) materialGroups) as Hm.
  pose proof (allMatchesB_nil (toLowerCase text) functionalGroups) as Hf.
  rewrite extractFeedbackParameters_eq. cbv zeta.
  destruct (firstMatchB (toLowerCase text) sizeGroups);
    destruct (firstMatchB (toLowerCase text) materialGroups);
    destruct (allMatchesB (toLowerCase text) functionalGroups);
    destruct (anyOf (toLowerCase text) (keywordsOf sizeGroups));
    destruct (anyOf (toLowerCase text) (keywordsOf materialGroups));
    destruct (anyOf (toLowerCase text) (keywordsOf functionalGroups));
    intuition congruence.
Qed.

(** A keyword found in a text is found in every text around it. *)
Lemma contains_ci_extend (text a b k : string) :
  contains_ci text k -> contains_ci (a ++ text ++ b) k.
Proof.
  intros [x [u [y [E Hu]]]]. subst text.
  exists (a ++ x), u, (y ++ b). split; [|exact Hu].
  now rewrite !string_app_assoc.
Qed.

Lemma matches_any_extend (text a b : string) (ks : list string) :
  matches_any text ks -> matches_any (a ++ text ++ b) ks.
Proof.
  intros [k [Hin Hk]]. exists k. split; [exact Hin|].
  now apply contains_ci_extend.
Qed.

End MatcherFacts.

(** X1.  Past the approval test the classifier answers
    [refinement_request] exactly for the texts that hold no approval
    keyword and some refinement keyword, and [comment] exactly for those
    that hold neither kind. *)
Theorem determineFeedbackType_decision (text : string) :
  (determineFeedbackType text = refinement_request <->
     ~ matches_any text approvalKeywords /\
     matches_any text refinementKeywords) /\
  (determineFeedbackType text = comment <->
     ~ matches_any text approvalKeywords /\
     ~ matches_any text refinementKeywords).
Proof.
  destruct (determineFeedbackType_cases text) as [_ [H2 H3]].
  split; assumption.
Qed.


(** X3.  The route analyses the text as it was sent and stores it trimmed;
    trimming changes neither the parameters nor the type. *)
Theorem feedback_analysis_trim_invariant (text : string) :
  extractFeedbackParameters (trim text) = extractFeedbackParameters text /\
  determineFeedbackType (trim text) = determineFeedbackType text.
Proof.
  split.
  - rewrite !extractFeedbackParameters_eq. cbv zeta.
    rewrite (firstMatchB_lower_trim text _ solid_size).
    rewrite (firstMatchB_lower_trim text _ solid_material).
    rewrite (allMatchesB_lower_trim text _ solid_functional).
    reflexivity.
  - rewrite !determineFeedbackType_eq.
    rewrite (anyOf_lower_trim text _ solid_approval).
    rewrite (anyOf_lower_trim text _ solid_refinement).
    reflexivity.
Qed.

(** X4.  Writing more around a text never takes a finding away: an
    approval stays an approval, a text that is not a plain comment does not
    become one, parameters that were found do not become absent, and the
    values of the first groups, [larger] and [TPU], stay. *)
Theorem feedback_analysis_extend (text a b : string) :
  (determineFeedbackType text = approval ->
   determineFeedbackType (a ++ text ++ b) = approval) /\
  (determineFeedbackType text <> comment ->
   determineFeedbackType (a ++ text ++ b) <> comment) /\
  (extractFeedbackParameters text <> None ->
   extractFeedbackParameters (a ++ text ++ b) <> None) /\
  (sizeOf (extractFeedbackParameters text) = Some larger ->
   sizeOf (extractFeedbackParameters (a ++ text ++ b)) = Some larger) /\
  (materialOf (extractFeedbackParameters text) = Some TPU ->
   materialOf (extractFeedbackParameters (a ++ text ++ b)) = Some TPU).
Proof.
  pose proof (determineFeedbackType_cases text) as [A1 [_ A3]].
  pose proof (determineFeedbackType_cases (a ++ text ++ b)) as [B1 [_ B3]].
  repeat split.
  - intros H. apply B1, matches_any_extend, A1, H.
  - intros H Hc. apply B3 in Hc. destruct Hc as [Na Nr]. apply H, A3.
    split; intros M; [apply Na | apply Nr]; now apply matches_any_extend.
  - rewrite !extract_present_iff.
    intros [H | [H | H]]; [left | right; left | right; right];
      now apply matches_any_extend.
  - rewrite !sizeOf_extract. cbn [firstMatchB sizeGroups].
    destruct (anyOf (toLowerCase text) ["bigger"; "larger"; "increase size"])
      eqn:E.
    + intros _.
      assert (L : Forall lowercase ["bigger"; "larger"; "increase size"])
        by (repeat constructor).
      apply (anyOf_iff text _ L) in E.
      apply (matches_any_extend text a b) in E.
      apply (anyOf_iff _ _ L) in E. now rewrite E.
    + clear E. intros H. exfalso.
      repeat match type of H with
             | context [if ?c then _ else _] => destruct c
             end; discriminate H.
  - rewrite !materialOf_extract. cbn [firstMatchB materialGroups].
    destruct (anyOf (toLowerCase text) ["flexible"; "rubbery"; "tpu"])
      eqn:E.
    + intros _.
      assert (L : Forall lowercase ["flexible"; "rubbery"; "tpu"])
        by (repeat constructor).
      apply (anyOf_iff text _ L) in E.
      apply (matches_any_extend text a b) in E.
      apply (anyOf_iff _ _ L) in E. now rewrite E.
    + clear E. intros H. exfalso.
      repeat match type of H with
             | context [if ?c then _ else _] => destruct c
             end; discriminate H.
Qed.

(** "looks good", with more text on both sides. *)
Lemma feedback_analysis_extend_witness :
  determineFeedbackType "looks good" = approval /\
  determineFeedbackType ("It " ++ "looks good" ++ ", but add a hole")
  = approval.
Proof.
  assert (H : determineFeedbackType "looks good" = approval)
    by (vm_compute; reflexivity).
  split; [exact H |].
  exact (proj1 (feedback_analysis_extend "looks good" "It "
                  ", but add a hole") H).
Defined.

(** ** Further facts on the printability checks *)

Section PrintabilityFacts.

Lemma analyzePrintability_pass (m : Model.modelData) :
  (Model.vertices m <= 100000)%Q -> (Model.fileSize m <= 10485760)%Q ->
  Model.analyzePrintability m = mkCheck true [] defaultsA.
Proof.
  intros Hv Hf. unfold Model.analyzePrintability.
  apply gt_false_le in Hv. apply gt_false_le in Hf.
  change 10485760%Q with (10 * 1024 * 1024)%Q in Hf.
  rewrite Hv, Hf. reflexivity.
Qed.

Lemma validateForPrinting_pass (m : STLConverter.meshData) :
  (1 <= STLConverter.volume m)%Q -> (STLConverter.volume m <= 1000)%Q ->
  (100 <= STLConverter.faces m)%Q -> (STLConverter.faces m <= 50000)%Q ->
  STLConverter.validateForPrinting m = mkCheck true [] defaultsB.
Proof.
  intros H1 H2 H3 H4. unfold STLConverter.validateForPrinting.
  apply gt_false_le in H1, H2, H3, H4.
  unfold gt in H1, H3. rewrite H1, H2, H3, H4. reflexivity.
Qed.

(** [Math.floor] keeps a number between zero and a bound it is below. *)
Lemma Math_floor_bounds (x n : Q) :
  (0 <= x)%Q -> (x < n)%Q ->
  (0 <= Math_floor x)%Q /\ (Math_floor x < n)%Q.
Proof.
  intros H0 Hn. unfold Math_floor. split.
  - change 0%Q with (inject_Z 0). rewrite <- Zle_Qle.
    change 0%Z with (Qfloor 0). now apply Qfloor_resp_le.
  - apply Qle_lt_trans with x; [apply Qfloor_le | exact Hn].
Qed.

End PrintabilityFacts.

(** X5.  The check after the STL conversion reports at most two issues:
    too small and too large exclude each other, and so do the high and
    the low face count; and the verdict is the same whatever the vertex
    count, which no rule reads. *)
Theorem validateForPrinting_two_issues (m : STLConverter.meshData) :
  let v := STLConverter.validateForPrinting m in
  List.length (issues v) <= 2 /\
  ~ (In "Model may be too small for reliable printing" (issues v) /\
     In "Model may be too large for some 3D printers" (issues v)) /\
  ~ (In "High face count may cause slicer performance issues" (issues v) /\
     In "Low face count may result in blocky appearance" (issues v)) /\
  forall n : number,
    STLConverter.validateForPrinting
      (STLConverter.mkMeshData n (STLConverter.faces m)
         (STLConverter.volume m)) = v.
Proof.
  cbv zeta. unfold STLConverter.validateForPrinting.
  cbn [STLConverter.volume STLConverter.faces].
  destruct (lt (STLConverter.volume m) (1 # 1)%Q) eqn:E1;
    destruct (gt (STLConverter.volume m) (1000 # 1)%Q) eqn:E2;
    destruct (gt (STLConverter.faces m) (50000 # 1)%Q) eqn:E3;
    destruct (lt (STLConverter.faces m) (100 # 1)%Q) eqn:E4;
    try (apply lt_iff in E1; apply gt_iff in E2; exfalso; lra);
    try (apply gt_iff in E3; apply lt_iff in E4; exfalso; lra);
    cbn; (split; [lia | split; [| split; [| reflexivity]]]);
    intros [H1 H2];
    repeat match goal with
           | H : _ \/ _ |- _ => destruct H
           | H : False |- _ => destruct H
           | H : _ = _ |- _ => discriminate H
           end.
Qed.

(** X6.  No issue and no recommendation is listed twice, in either
    check. *)
Theorem printability_lists_distinct :
  (forall m : Model.modelData,
     NoDup (issues (Model.analyzePrintability m)) /\
     NoDup (recommendations (Model.analyzePrintability m))) /\
  (forall m : STLConverter.meshData,
     NoDup (issues (STLConverter.validateForPrinting m)) /\
     NoDup (recommendations (STLConverter.validateForPrinting m))).
Proof.
  split; intros m.
  - unfold Model.analyzePrintability.
    destruct (gt (Model.vertices m) (100000 # 1)%Q);
      destruct (gt (Model.fileSize m) (10 * 1024 * 1024)%Q);
      cbn; split; repeat constructor; cbn; intuition discriminate.
  - unfold STLConverter.validateForPrinting.
    destruct (lt (STLConverter.volume m) (1 # 1)%Q);
      destruct (gt (STLConverter.volume m) (1000 # 1)%Q);
      destruct (gt (STLConverter.faces m) (50000 # 1)%Q);
      destruct (lt (STLConverter.faces m) (100 # 1)%Q);
      cbn; split; repeat constructor; cbn; intuition discriminate.
Qed.

(** X7.  The statistics that the model route makes up, whatever the three
    random numbers, are below both thresholds: the check that follows
    always passes, with no issue and the three default recommendations. *)
Theorem simulatedModelData_passes (random1 random2 random3 : number) :
  (0 <= random1)%Q -> (random1 < 1)%Q ->
  (0 <= random3)%Q -> (random3 < 1)%Q ->
  Model.analyzePrintability
    (ModelRoute.simulatedModelData random1 random2 random3)
  = mkCheck true [] defaultsA.
Proof.
  intros H1 H1' H3 H3'. unfold number in *.
  destruct (Math_floor_bounds (random1 * 10000) 10000) as [_ Hv];
    [lra | lra |].
  destruct (Math_floor_bounds (random3 * 1024 * 1024) (1024 * 1024))
    as [_ Hf]; [lra | lra |].
  apply analyzePrintability_pass;
    unfold ModelRoute.simulatedModelData;
    cbn [Model.vertices Model.fileSize]; lra.
Qed.

(** Three random numbers. *)
Lemma simulatedModelData_passes_witness :
  (0 <= 1 # 2)%Q /\ (1 # 2 < 1)%Q /\ (0 <= 9 # 10)%Q /\ (9 # 10 < 1)%Q /\
  Model.analyzePrintability
    (ModelRoute.simulatedModelData (1 # 2)%Q 0%Q (9 # 10)%Q)
  = mkCheck true [] defaultsA.
Proof.
  assert (A : (0 <= 1 # 2)%Q) by (vm_compute; discriminate).
  assert (B : (1 # 2 < 1)%Q) by reflexivity.
  assert (C : (0 <= 9 # 10)%Q) by (vm_compute; discriminate).
  assert (D : (9 # 10 < 1)%Q) by reflexivity.
  repeat (split; [assumption|]).
  exact (simulatedModelData_passes _ 0%Q _ A B C D).
Defined.

(** X8.  The statistics that the converter makes up, whatever the three
    random numbers, lie inside all four limits: the validation of a
    converted file always passes, with no issue and the four default
    recommendations. *)
Theorem convertGLTFToSTL_passes (gltfUrl projectId : string)
  (random1 random2 random3 : number) :
  (0 <= random2)%Q -> (random2 < 1)%Q ->
  (0 <= random3)%Q -> (random3 < 1)%Q ->
  STLConverter.validateForPrinting
    (STLConverter.meshStats
       (STLConverter.convertGLTFToSTL gltfUrl projectId
          random1 random2 random3))
  = mkCheck true [] defaultsB.
Proof.
  intros H2 H2' H3 H3'. unfold number in *.
  destruct (Math_floor_bounds (random2 * 6000) 6000) as [Hl Hu];
    [lra | lra |].
  apply validateForPrinting_pass;
    unfold STLConverter.convertGLTFToSTL;
    cbn [STLConverter.meshStats STLConverter.volume STLConverter.faces];
    lra.
Qed.

(** Three random numbers. *)
Lemma convertGLTFToSTL_passes_witness :
  (0 <= 1 # 3)%Q /\ (1 # 3 < 1)%Q /\ (0 <= 0)%Q /\ (0 < 1)%Q /\
  STLConverter.validateForPrinting
    (STLConverter.meshStats
       (STLConverter.convertGLTFToSTL "model.gltf" "p1"
          (1 # 2)%Q (1 # 3)%Q 0%Q))
  = mkCheck true [] defaultsB.
Proof.
  assert (A : (0 <= 1 # 3)%Q) by (vm_compute; discriminate).
  assert (B : (1 # 3 < 1)%Q) by reflexivity.
  assert (C : (0 <= 0)%Q) by (vm_compute; discriminate).
  assert (D : (0 < 1)%Q) by reflexivity.
  repeat (split; [assumption|]).
  exact (convertGLTFToSTL_passes "model.gltf" "p1" (1 # 2)%Q _ _ A B C D).
Defined.

(** ** Product specifications *)

Section Specs.

Lemma lowercase_specMaterial :
  Forall (fun g => Forall lowercase (fst g)) specMaterialGroups.
Proof. repeat constructor. Qed.

Lemma lowercase_product :
  Forall (fun g => Forall lowercase (fst g)) productGroups.
Proof. repeat constructor. Qed.

Lemma solid_specMaterial :
  Forall (fun g => Forall solid (fst g)) specMaterialGroups.
Proof. repeat constructor. Qed.

Lemma solid_product :
  Forall (fun g => Forall solid (fst g)) productGroups.
Proof. repeat constructor. Qed.

(** [generateProductSpecs] is two first-match choices and the estimates. *)
Lemma generateProductSpecs_eq (prompt : string) :
  Projects.generateProductSpecs prompt
  = estimateSpecs
      (orDefault PLA
         (firstMatchB (toLowerCase prompt) specMaterialGroups))
      (orDefault defaultProduct
         (firstMatchB (toLowerCase prompt) productGroups)).
Proof.
  unfold Projects.generateProductSpecs, specMaterialGroups, productGroups.
  cbn [firstMatchB]. unfold anyOf. cbn [existsb].
  rewrite !orb_false_r. cbv zeta.
  generalize (toLowerCase prompt) as l. intros l.
  destruct (includes l "flexible" || includes l "cable");
    destruct (includes l "durable" || includes l "outdoor");
    destruct (includes l "phone" || includes l "mobile");
    destruct (includes l "organizer" || includes l "storage");
    destruct (includes l "stand" || includes l "holder");
    reflexivity.
Qed.

Lemma firstMatchB_In {A : Type} (l : string)
  (groups : list (list string * A)) (v : A) :
  firstMatchB l groups = Some v -> exists ks, In (ks, v) groups.
Proof.
  induction groups as [|[ks w] gs IH]; simpl; [discriminate|].
  destruct (anyOf l ks).
  - intros H. injection H as ->. exists ks. now left.
  - intros H. destruct (IH H) as [ks' Hin]. exists ks'. now right.
Qed.

End Specs.

(** X9.  The material of the specifications is that of the first group
    matched, TPU for "flexible" or "cable" before PETG for "durable" or
    "outdoor", and PLA when neither matches, never ABS; the dimensions and
    the functions are those of the first product type matched, phone
    before organizer before stand, and the defaults otherwise. *)
Theorem generateProductSpecs_choices (prompt : string) :
  let s := Projects.generateProductSpecs prompt in
  (exists r, FirstMatch prompt specMaterialGroups r /\
             Projects.material s = orDefault PLA r) /\
  (exists r, FirstMatch prompt productGroups r /\
             (Projects.dimensions s, Projects.functionality s)
             = orDefault defaultProduct r) /\
  Projects.material s <> ABS.
Proof.
  cbv zeta. rewrite generateProductSpecs_eq.
  pose proof (firstMatchB_sound prompt _ lowercase_specMaterial) as Hm.
  pose proof (firstMatchB_sound prompt _ lowercase_product) as Hp.
  pose proof (firstMatchB_In (toLowerCase prompt) specMaterialGroups) as Hin.
  destruct (firstMatchB (toLowerCase prompt) specMaterialGroups) as [m|];
    destruct (firstMatchB (toLowerCase prompt) productGroups) as [[d f]|];
    (split; [eexists; split; [exact Hm | reflexivity] |
     split; [eexists; split; [exact Hp | reflexivity] |]]);
    cbn; try discriminate;
    intros ->; destruct (Hin ABS eq_refl) as [ks Hks];
    cbn in Hks; intuition discriminate.
Qed.

(** X10.  Supports are asked for exactly for the phone products: of the
    four sets of dimensions only theirs is more than one and a half times
    higher than wide. *)
Theorem generateProductSpecs_support (prompt : string) :
  Projects.supportRequired
    (Projects.printSettings (Projects.generateProductSpecs prompt)) = true
  <-> matches_any prompt ["phone"; "mobile"].
Proof.
  assert (L : Forall lowercase ["phone"; "mobile"]) by (repeat constructor).
  rewrite <- (anyOf_iff prompt _ L), generateProductSpecs_eq.
  cbn [firstMatchB productGroups].
  generalize (orDefault PLA
                (firstMatchB (toLowerCase prompt) specMaterialGroups)).
  intros m.
  destruct (anyOf (toLowerCase prompt) ["phone"; "mobile"]);
    [| destruct (anyOf (toLowerCase prompt) ["organizer"; "storage"]);
       [| destruct (anyOf (toLowerCase prompt) ["stand"; "holder"])]];
    destruct m; vm_compute; split; congruence.
Qed.

(** X11.  Whatever the prompt, the estimates stay in a fixed range: a
    weight from 24 to 122 grams, a print time from 250 to 1200 minutes,
    and a material cost above zero. *)
Theorem generateProductSpecs_estimates (prompt : string) :
  let s := Projects.generateProductSpecs prompt in
  (24 <= Projects.estimatedWeight s)%Q /\
  (Projects.estimatedWeight s <= 122)%Q /\
  (250 <= Projects.estimatedPrintTime s)%Q /\
  (Projects.estimatedPrintTime s <= 1200)%Q /\
  (0 < Projects.estimatedMaterialCost s)%Q.
Proof.
  cbv zeta. rewrite generateProductSpecs_eq.
  generalize (orDefault PLA
                (firstMatchB (toLowerCase prompt) specMaterialGroups)).
  intros m.
  pose proof (firstMatchB_In (toLowerCase prompt) productGroups) as Hin.
  destruct (firstMatchB (toLowerCase prompt) productGroups) as [df|].
  - destruct (Hin df eq_refl) as [ks Hks].
    cbn in Hks.
    destruct Hks as [E | [E | [E | []]]]; injection E as _ <-;
      destruct m; vm_compute; repeat split; congruence.
  - destruct m; vm_compute; repeat split; congruence.
Qed.

(** X12.  The route computes the specifications from the prompt as sent
    and stores the prompt trimmed; the specifications are the same for
    the trimmed prompt, and for the prompt in lower case. *)
Theorem generateProductSpecs_trim_case_invariant (prompt : string) :
  Projects.generateProductSpecs (trim prompt)
  = Projects.generateProductSpecs prompt /\
  Projects.generateProductSpecs (toLowerCase prompt)
  = Projects.generateProductSpecs prompt.
Proof.
  rewrite !generateProductSpecs_eq. split.
  - rewrite (firstMatchB_lower_trim prompt _ solid_specMaterial).
    rewrite (firstMatchB_lower_trim prompt _ solid_product).
    reflexivity.
  - rewrite toLowerCase_idem. reflexivity.
Qed.

(** ** The name of the STL file *)

Section FileName.

Lemma length_replaceNonAlphaNumeric (s : string) :
  String.length (replaceNonAlphaNumeric s) = String.length s.
Proof. induction s as [|c s IH]; simpl; [reflexivity | now rewrite IH]. Qed.

Lemma substring_replaceNonAlphaNumeric (n : nat) (s : string) :
  substring 0 n (replaceNonAlphaNumeric s)
  = replaceNonAlphaNumeric (substring 0 n s).
Proof.
  revert s; induction n as [|n IH]; intros [|c s]; simpl; try reflexivity.
  now rewrite IH.
Qed.

Lemma length_substring_0 (n : nat) (s : string) :
  String.length (substring 0 n s) = Nat.min n (String.length s).
Proof.
  revert s; induction n as [|n IH]; intros [|c s]; simpl; try reflexivity.
  now rewrite IH.
Qed.

Lemma allChars_replaceNonAlphaNumeric (s : string) :
  allChars fileNameChar (replaceNonAlphaNumeric s) = true.
Proof.
  induction s as [|c s IH]; simpl; [reflexivity|].
  rewrite IH, andb_true_r. unfold fileNameChar.
  destruct (isAlphaNumeric c) eqn:E; [now rewrite E | reflexivity].
Qed.

End FileName.

(** X13.  The name of the uploaded file is the first 30 code units of the
    prompt, each one that is not a letter or a digit of ASCII replaced by
    an underscore, then an underscore, the project id as it is, and
    ".stl". *)
Theorem fileName_shape (prompt projectId : string) :
  exists stem,
    STLRoute.fileName prompt projectId = stem ++ "_" ++ projectId ++ ".stl" /\
    stem = replaceNonAlphaNumeric (substring 0 30 prompt) /\
    String.length stem = Nat.min 30 (String.length prompt) /\
    allChars fileNameChar stem = true.
Proof.
  exists (replaceNonAlphaNumeric (substring 0 30 prompt)).
  unfold STLRoute.fileName.
  rewrite substring_replaceNonAlphaNumeric.
  repeat split.
  - now rewrite length_replaceNonAlphaNumeric, length_substring_0.
  - apply allChars_replaceNonAlphaNumeric.
Qed.

(** ** Job ids: printing and reading the time stamp *)

Section JobIds.

Lemma split_app_sep (sep : ascii) (a b : string) :
  allChars (fun c => negb (Ascii.eqb c sep)) a = true ->
  split sep (a ++ String sep b) = a :: split sep b.
Proof.
  induction a as [|c a IH]; simpl.
  - intros _. now rewrite Ascii.eqb_refl.
  - intros H. apply andb_true_iff in H. destruct H as [Hc Ha].
    apply negb_true_iff in Hc. rewrite Hc, (IH Ha). reflexivity.
Qed.

Lemma string_of_uint_no_underscore (d : Decimal.uint) :
  allChars (fun c => negb (Ascii.eqb c "_")) (NilEmpty.string_of_uint d)
  = true.
Proof. induction d; simpl; auto. Qed.

Lemma digitsPrefix_uint (d : Decimal.uint) (acc : N) :
  digitsPrefix 10 (NilEmpty.string_of_uint d) (Some acc)
  = Some (uintValue d acc).
Proof.
  revert acc; induction d; intros acc; cbn [NilEmpty.string_of_uint];
    try reflexivity;
    cbn [digitsPrefix uintValue];
    match goal with
    | |- context [digitValue 10 ?c] =>
        let v := eval vm_compute in (digitValue 10 c) in
        change (digitValue 10 c) with v
    end;
    cbv iota beta; rewrite <- IHd; f_equal; f_equal; lia.
Qed.

Lemma digitsPrefix_uint_start (d : Decimal.uint) :
  d <> Decimal.Nil ->
  digitsPrefix 10 (NilEmpty.string_of_uint d) None = Some (uintValue d 0).
Proof.
  destruct d; intros H; try (now destruct H);
    cbn [NilEmpty.string_of_uint digitsPrefix uintValue];
    match goal with
    | |- context [digitValue 10 ?c] =>
        let v := eval vm_compute in (digitValue 10 c) in
        change (digitValue 10 c) with v
    end;
    cbv iota beta; rewrite <- digitsPrefix_uint; reflexivity.
Qed.

Lemma uintValue_pos (d : Decimal.uint) (p : positive) :
  uintValue d (Npos p) = Npos (Pos.of_uint_acc d p).
Proof.
  revert p; induction d; intros p; cbn [uintValue Pos.of_uint_acc];
    try reflexivity; rewrite <- IHd; f_equal; lia.
Qed.

Lemma uintValue_0 (d : Decimal.uint) : uintValue d 0 = N.of_uint d.
Proof.
  unfold N.of_uint.
  induction d; cbn [uintValue Pos.of_uint]; try reflexivity;
    try exact IHd; rewrite <- uintValue_pos; reflexivity.
Qed.

Lemma to_uint_not_Nil (n : N) : N.to_uint n <> Decimal.Nil.
Proof.
  intros E. pose proof (DecimalN.Unsigned.of_to n) as H.
  rewrite E in H. cbn in H. subst n. discriminate E.
Qed.

Lemma parseInt_string_of_uint (d : Decimal.uint) :
  parseInt (NilEmpty.string_of_uint d)
  = match digitsPrefix 10 (NilEmpty.string_of_uint d) None with
    | Some n => Some (Z.of_N n)
    | None => None
    end.
Proof.
  assert (M : forall o : option N,
             match o with Some n => Some (1 * Z.of_N n)%Z | None => None end
             = match o with Some n => Some (Z.of_N n) | None => None end).
  { intros [n|]; [now rewrite Z.mul_1_l | reflexivity]. }
  destruct d as [|d|d|d|d|d|d|d|d|d|d]; try (destruct d);
    match goal with
    | |- parseInt ?s = _ => exact (M (digitsPrefix 10 s None))
    end.
Qed.

(** Reading back the decimal form of a non-negative integer. *)
Lemma parseInt_Number_toString (n : N) :
  parseInt (Number_toString n) = Some (Z.of_N n).
Proof.
  unfold Number_toString.
  rewrite parseInt_string_of_uint,
    (digitsPrefix_uint_start _ (to_uint_not_Nil n)), uintValue_0.
  now rewrite DecimalN.Unsigned.of_to.
Qed.

Lemma timestamp_of_submitted (t0 : N) (randomPart : string) :
  nth_error
    (split "_" (EdgeOneClient.submitFor3DReconstruction t0 randomPart)) 1
  = Some (Number_toString t0).
Proof.
  unfold EdgeOneClient.submitFor3DReconstruction, Number_toString.
  change ("edge_" ++ ?x) with ("edge" ++ String "_" x).
  rewrite split_app_sep by reflexivity.
  change (?d ++ "_" ++ randomPart) with (d ++ String "_" randomPart).
  rewrite split_app_sep by apply string_of_uint_no_underscore.
  reflexivity.
Qed.

End JobIds.

(** ** The status of a job and the polling loop *)

Section Jobs.

Import EdgeOneClient.

Lemma progress_below_90 (age : Z) :
  (age < 5000)%Z ->
  (Math_min 90%Q ((inject_Z age / 5000) * 90)%Q < 90)%Q.
Proof.
  intros H. rewrite Zlt_Qlt in H. change (inject_Z 5000) with 5000%Q in H.
  assert (Hx : ((inject_Z age / 5000) * 90 < 90)%Q).
  { unfold Qdiv. change (/ 5000)%Q with (1 # 5000)%Q. lra. }
  unfold Math_min.
  destruct (lt ((inject_Z age / 5000) * 90)%Q 90%Q) eqn:E; [exact Hx|].
  apply lt_false_iff in E. contradiction.
Qed.

Lemma checkJobStatus_status (now : Z) (jobId : string) :
  status (checkJobStatus now jobId) = processing \/
  status (checkJobStatus now jobId) = completed /\
  downloadUrl (checkJobStatus now jobId) = Some (modelUrl jobId).
Proof.
  unfold checkJobStatus.
  destruct (parseInt _) as [t|]; cbn [option_map].
  - destruct (now - t <? 5000)%Z; [left | right; split]; reflexivity.
  - right; split; reflexivity.
Qed.

(** The status of a job whose id was made by [submitFor3DReconstruction]:
    the time stamp is read back from the id. *)
Lemma checkJobStatus_of_submitted (now : Z) (t0 : N) (randomPart : string) :
  checkJobStatus now (submitFor3DReconstruction t0 randomPart)
  = if (now - Z.of_N t0 <? 5000)%Z
    then mkJobResult processing
           (Some (Math_min 90%Q
                    ((inject_Z (now - Z.of_N t0) / 5000) * 90)%Q))
           None None
    else mkJobResult completed (Some 100%Q)
           (Some (modelUrl (submitFor3DReconstruction t0 randomPart))) None.
Proof.
  unfold checkJobStatus.
  rewrite timestamp_of_submitted, parseInt_Number_toString.
  reflexivity.
Qed.

(** What the loop leaves behind, started at [attempts] with [fuel] turns
    left: the first check that found the job completed, or, after the
    twelfth check, a job still processing. *)
Lemma pollLoop_result (clock : nat -> Z) (jobId : string) (fuel : nat) :
  forall (attempts : nat) (jobResult : option JobResult),
    fuel + attempts = ModelRoute.maxAttempts ->
    (jobResult = None -> attempts < ModelRoute.maxAttempts) ->
    (forall r, jobResult = Some r -> status r = processing) ->
    exists r n,
      ModelRoute.pollLoop clock jobId fuel attempts jobResult = (Some r, n) /\
      (forall j, attempts <= j < n ->
         status (checkJobStatus (clock j) jobId) = processing) /\
      ((n < ModelRoute.maxAttempts /\ r = checkJobStatus (clock n) jobId /\
        status r = completed) \/
       (n = ModelRoute.maxAttempts /\ status r = processing)).
Proof.
  unfold ModelRoute.maxAttempts.
  induction fuel as [|fuel IH]; intros attempts jobResult Hf Hn Hp.
  - simpl in Hf. subst attempts. destruct jobResult as [r|].
    + exists r, 12. split; [reflexivity|]. split; [intros j Hj; lia|].
      right. split; [reflexivity | now apply Hp].
    + specialize (Hn eq_refl). lia.
  - cbn [ModelRoute.pollLoop]. unfold ModelRoute.maxAttempts.
    assert (Hlt : (attempts <? 12)%nat = true) by (apply Nat.ltb_lt; lia).
    rewrite Hlt.
    destruct (checkJobStatus_status (clock attempts) jobId) as [E | [E _]].
    + rewrite E.
      destruct (IH (S attempts)
                  (Some (checkJobStatus (clock attempts) jobId)))
        as [r [n [Hr [Hj Hc]]]].
      * lia.
      * discriminate.
      * intros r0 H0. injection H0 as <-. exact E.
      * exists r, n. split; [exact Hr|]. split; [|exact Hc].
        intros j Hjn. destruct (Nat.eq_dec j attempts) as [->|Hne];
          [exact E | apply Hj; lia].
    + rewrite E.
      exists (checkJobStatus (clock attempts) jobId), attempts.
      split; [reflexivity|]. split; [intros j Hj; lia|].
      left. split; [lia | split; [reflexivity | exact E]].
Qed.

End Jobs.

(** X14.  A status check never reports a failed or a pending job and
    never an error: the job is either processing, with no download
    address and a progress strictly below 90, or completed, with a
    progress of 100 and the address of the model named after the id.  An
    id with no time stamp to read counts as completed. *)
Theorem checkJobStatus_outcomes (now : Z) (jobId : string) :
  let r := EdgeOneClient.checkJobStatus now jobId in
  EdgeOneClient.error r = None /\
  ((EdgeOneClient.status r = EdgeOneClient.processing /\
    EdgeOneClient.downloadUrl r = None /\
    exists p, EdgeOneClient.progress r = Some p /\ (p < 90)%Q) \/
   (EdgeOneClient.status r = EdgeOneClient.completed /\
    EdgeOneClient.progress r = Some 100%Q /\
    EdgeOneClient.downloadUrl r = Some (modelUrl jobId))) /\
  (JS.parseInt (match nth_error (JS.split "_" jobId) 1 with
                | Some part => part
                | None => "undefined"
                end) = None ->
   EdgeOneClient.status r = EdgeOneClient.completed).
Proof.
  cbv zeta. unfold EdgeOneClient.checkJobStatus.
  destruct (parseInt _) as [t|]; cbn [option_map].
  - destruct (now - t <? 5000)%Z eqn:E; cbn.
    + split; [reflexivity|]. split; [|discriminate].
      left. split; [reflexivity|]. split; [reflexivity|].
      eexists. split; [reflexivity|].
      apply progress_below_90. now apply Z.ltb_lt.
    + split; [reflexivity|]. split; [|discriminate].
      right. repeat split.
  - cbn. split; [reflexivity|]. split; [|reflexivity].
    right. repeat split.
Qed.

(** X15.  The time stamp that [submitFor3DReconstruction] writes into the
    job id is the one that [checkJobStatus] reads back: a submitted job is
    processing for the five seconds that follow and completed from then
    on, and while it is processing its progress is not negative once the
    clock has reached the time of submission. *)
Theorem checkJobStatus_submitted (now : Z) (t0 : N) (randomPart : string) :
  let r := EdgeOneClient.checkJobStatus now
             (EdgeOneClient.submitFor3DReconstruction t0 randomPart) in
  EdgeOneClient.status r
  = (if (now - Z.of_N t0 <? 5000)%Z
     then EdgeOneClient.processing else EdgeOneClient.completed) /\
  ((Z.of_N t0 <= now)%Z ->
   forall p, EdgeOneClient.progress r = Some p -> (0 <= p)%Q).
Proof.
  cbv zeta. rewrite checkJobStatus_of_submitted.
  destruct (now - Z.of_N t0 <? 5000)%Z eqn:E; cbn.
  - split; [reflexivity|]. intros Ht p Hp. injection Hp as <-.
    assert (Ha : (0 <= inject_Z (now - Z.of_N t0))%Q).
    { change 0%Q with (inject_Z 0). rewrite <- Zle_Qle. lia. }
    assert (Hx : (0 <= (inject_Z (now - Z.of_N t0) / 5000) * 90)%Q).
    { unfold Qdiv. change (/ 5000)%Q with (1 # 5000)%Q. lra. }
    unfold Math_min.
    destruct (lt _ _); [exact Hx | discriminate].
  - split; [reflexivity|]. intros _ p Hp. injection Hp as <-.
    discriminate.
Qed.

(** A job submitted at 1700000000000 and checked three seconds later. *)
Lemma checkJobStatus_submitted_witness :
  (Z.of_N 1700000000000 <= 1700000003000)%Z /\
  forall p,
    EdgeOneClient.progress
      (EdgeOneClient.checkJobStatus 1700000003000
         (EdgeOneClient.submitFor3DReconstruction 1700000000000 "k3j9x0abc"))
    = Some p -> (0 <= p)%Q.
Proof.
  assert (H : (Z.of_N 1700000000000 <= 1700000003000)%Z) by (cbn; lia).
  split; [exact H |].
  exact (proj2 (checkJobStatus_submitted 1700000003000 1700000000000
                  "k3j9x0abc") H).
Defined.

(** X16.  The wait for a job ends in one of two ways only: with the
    result of the first check that found the job completed, or, when all
    twelve checks found it processing, with the error "EdgeOne job did not
    complete successfully"; the error "EdgeOne job failed or timed out" is
    never raised. *)
Theorem awaitJob_outcomes (clock : nat -> Z) (jobId : string) :
  (exists n, n < 12 /\
     ModelRoute.awaitJob clock jobId
     = inr (EdgeOneClient.checkJobStatus (clock n) jobId) /\
     EdgeOneClient.status (EdgeOneClient.checkJobStatus (clock n) jobId)
     = EdgeOneClient.completed /\
     forall j, j < n ->
       EdgeOneClient.status (EdgeOneClient.checkJobStatus (clock j) jobId)
       = EdgeOneClient.processing) \/
  (ModelRoute.awaitJob clock jobId
   = inl "EdgeOne job did not complete successfully" /\
   forall j, j < 12 ->
     EdgeOneClient.status (EdgeOneClient.checkJobStatus (clock j) jobId)
     = EdgeOneClient.processing).
Proof.
  unfold ModelRoute.awaitJob.
  destruct (pollLoop_result clock jobId ModelRoute.maxAttempts 0 None)
    as [r [n [Hr [Hj Hc]]]].
  - reflexivity.
  - intros _. unfold ModelRoute.maxAttempts. lia.
  - discriminate.
  - rewrite Hr. unfold ModelRoute.maxAttempts in Hc.
    destruct Hc as [[Hn [Er Es]] | [Hn Es]].
    + left. exists n. split; [exact Hn|]. rewrite Es.
      destruct (checkJobStatus_status (clock n) jobId) as [E | [_ E]].
      * rewrite <- Er, Es in E. discriminate.
      * rewrite <- Er in E. rewrite E. cbn [ModelRoute.truthy modelUrl].
        split; [now rewrite Er|]. split; [now rewrite <- Er|].
        intros j Hjn. apply Hj. lia.
    + right. rewrite Es. split; [reflexivity|].
      intros j Hjn. apply Hj. lia.
Qed.

(** X17.  For a job that was just submitted, when the first wait lasts
    its five seconds, the loop ends at the first or at the second check,
    with a completed job. *)
Theorem awaitJob_submitted (clock : nat -> Z) (t0 : N)
  (randomPart : string) :
  (Z.of_N t0 <= clock 0%nat)%Z ->
  (clock 0%nat + 5000 <= clock 1%nat)%Z ->
  let jobId := EdgeOneClient.submitFor3DReconstruction t0 randomPart in
  exists n, n <= 1 /\
    ModelRoute.awaitJob clock jobId
    = inr (EdgeOneClient.checkJobStatus (clock n) jobId) /\
    EdgeOneClient.status (EdgeOneClient.checkJobStatus (clock n) jobId)
    = EdgeOneClient.completed.
Proof.
  intros H0 H1. cbv zeta.
  set (jobId := EdgeOneClient.submitFor3DReconstruction t0 randomPart).
  assert (S1 : EdgeOneClient.status
                 (EdgeOneClient.checkJobStatus (clock 1%nat) jobId)
               = EdgeOneClient.completed).
  { unfold jobId. rewrite checkJobStatus_of_submitted.
    assert (E1 : (clock 1%nat - Z.of_N t0 <? 5000)%Z = false)
      by (apply Z.ltb_ge; lia).
    now rewrite E1. }
  unfold ModelRoute.awaitJob.
  destruct (pollLoop_result clock jobId ModelRoute.maxAttempts 0 None)
    as [r [n [Hr [Hj Hc]]]].
  - reflexivity.
  - intros _. unfold ModelRoute.maxAttempts. lia.
  - discriminate.
  - rewrite Hr. unfold ModelRoute.maxAttempts in Hc.
    assert (Hn : n <= 1).
    { destruct (le_lt_dec n 1) as [Hle | Hgt]; [exact Hle|].
      assert (P : EdgeOneClient.status
                    (EdgeOneClient.checkJobStatus (clock 1%nat) jobId)
                  = EdgeOneClient.processing) by (apply Hj; lia).
      rewrite S1 in P. discriminate. }
    destruct Hc as [[_ [Er Es]] | [Hn' _]]; [|lia].
    exists n. split; [exact Hn|]. rewrite Es.
    destruct (checkJobStatus_status (clock n) jobId) as [E | [_ E]].
    + rewrite <- Er, Es in E. discriminate.
    + rewrite <- Er in E. rewrite E. cbn [ModelRoute.truthy modelUrl].
      split; [now rewrite Er | now rewrite <- Er].
Qed.

(** A job submitted at 1700000000000, checked 100 ms later and then every
    five seconds. *)
Lemma awaitJob_submitted_witness :
  let clock := fun i => (1700000000100 + 5000 * Z.of_nat i)%Z in
  let jobId :=
    EdgeOneClient.submitFor3DReconstruction 1700000000000 "k3j9x0abc" in
  exists n, n <= 1 /\
    ModelRoute.awaitJob clock jobId
    = inr (EdgeOneClient.checkJobStatus (clock n) jobId) /\
    EdgeOneClient.status (EdgeOneClient.checkJobStatus (clock n) jobId)
    = EdgeOneClient.completed.
Proof.
  cbv zeta.
  apply (awaitJob_submitted
           (fun i => (1700000000100 + 5000 * Z.of_nat i)%Z)
           1700000000000 "k3j9x0abc"); cbn; lia.
Defined.

(** ** The steps of the flow *)

Section Flow.

Import Hooks.

Lemma le_iff (a b : number) : le a b = true <-> (a <= b)%Q.
Proof. apply Qle_bool_iff. Qed.

Lemma applyAction_inRange (a : flowAction) (f : flow) :
  inRange f -> inRange (applyAction a f).
Proof.
  unfold inRange. intros [H1 H4]. destruct a as [step| | |]; cbn.
  - unfold goToStep.
    destruct (ge step 1%Q && le step 4%Q) eqn:E; [|split; assumption].
    apply andb_true_iff in E. destruct E as [E1 E4].
    apply le_iff in E1, E4. cbn. split; assumption.
  - unfold Math_min. destruct (lt 4%Q (currentStep f + 1)%Q) eqn:E.
    + split; lra.
    + apply lt_false_iff in E. split; lra.
  - unfold Math_max. destruct (lt (currentStep f - 1)%Q 1%Q) eqn:E.
    + split; lra.
    + apply lt_false_iff in E. split; lra.
  - split; lra.
Qed.

Lemma applyAction_userId (a : flowAction) (f : flow) :
  userId (applyAction a f) = userId f.
Proof.
  destruct a as [step| | |]; cbn; try reflexivity.
  unfold goToStep. destruct (ge step 1%Q && le step 4%Q); reflexivity.
Qed.

End Flow.

(** X18.  Whatever sequence of [goToStep], [nextStep], [prevStep] and
    [resetFlow] is run, a step that was between 1 and 4 stays between 1
    and 4, the progress stays between 25 and 100 per cent, and the user
    stays the same. *)
Theorem flow_stays_in_range (acts : list flowAction) (f : Hooks.flow) :
  inRange f ->
  inRange (runActions acts f) /\
  (25 <= Hooks.progressPercentage (runActions acts f))%Q /\
  (Hooks.progressPercentage (runActions acts f) <= 100)%Q /\
  Hooks.userId (runActions acts f) = Hooks.userId f.
Proof.
  intros H.
  assert (R : inRange (runActions acts f) /\
              Hooks.userId (runActions acts f) = Hooks.userId f).
  { unfold runActions. revert f H.
    induction acts as [|a acts IH]; intros f H; cbn [fold_left].
    - split; [exact H | reflexivity].
    - destruct (IH (applyAction a f) (applyAction_inRange a f H))
        as [H1 H2].
      split; [exact H1 | now rewrite H2, applyAction_userId]. }
  destruct R as [[R1 R4] Ru].
  split; [split; assumption|].
  unfold Hooks.progressPercentage, Qdiv.
  change (/ 4)%Q with (1 # 4)%Q.
  repeat split; try lra. exact Ru.
Qed.

(** From the first screen: forward twice, a jump out of range, back, and
    forward three times. *)
Lemma flow_stays_in_range_witness :
  let acts := [NextStep; NextStep; GoToStep 7%Q; PrevStep;
               NextStep; NextStep; NextStep] in
  inRange Hooks.initialFlow /\
  inRange (runActions acts Hooks.initialFlow) /\
  (Hooks.progressPercentage (runActions acts Hooks.initialFlow) <= 100)%Q.
Proof.
  cbv zeta.
  assert (H : inRange Hooks.initialFlow)
    by (split; vm_compute; discriminate).
  split; [exact H |].
  pose proof (flow_stays_in_range
                [NextStep; NextStep; GoToStep 7%Q; PrevStep;
                 NextStep; NextStep; NextStep] Hooks.initialFlow H)
    as [R [_ [P _]]].
  split; [exact R | exact P].
Defined.



(** ** The stored file *)

Section StoredFile.

Lemma allChars_app (p : ascii -> bool) (a b : string) :
  allChars p (a ++ b) = allChars p a && allChars p b.
Proof.
  induction a as [|c a IH]; simpl; [reflexivity|].
  now rewrite IH, andb_assoc.
Qed.

Lemma allChars_impl (p q : ascii -> bool) (s : string) :
  (forall c, p c = true -> q c = true) ->
  allChars p s = true -> allChars q s = true.
Proof.
  intros Hpq. induction s as [|c s IH]; simpl; [reflexivity|].
  intros H. apply andb_true_iff in H. destruct H as [Hc Hs].
  now rewrite (Hpq c Hc), (IH Hs).
Qed.

Lemma fileNameChar_not_slash (c : ascii) :
  fileNameChar c = true -> negb (Ascii.eqb c "/") = true.
Proof.
  destruct c as [[] [] [] [] [] [] [] []]; vm_compute; intros H;
    first [reflexivity | discriminate H].
Qed.

Lemma Buffer_length_app (a b : string) :
  Buffer_length (a ++ b) = Buffer_length a + Buffer_length b.
Proof.
  induction a as [|c a IH]; simpl; [reflexivity|].
  rewrite IH. lia.
Qed.

End StoredFile.

(** X20.  The size that the STL route reports is that of the mock file:
    281 bytes and twice the bytes of the project id, whatever the model
    and whatever the mesh statistics drawn beside it. *)
Theorem convertGLTFToSTL_buffer_length (gltfUrl projectId : string)
  (random1 random2 random3 : number) :
  Buffer_length
    (STLConverter.stlBuffer
       (STLConverter.convertGLTFToSTL gltfUrl projectId
          random1 random2 random3))
  = 281 + 2 * Buffer_length projectId.
Proof.
  unfold STLConverter.convertGLTFToSTL, STLConverter.generateMockSTL.
  cbn [STLConverter.stlBuffer].
  rewrite !Buffer_length_app.
  repeat match goal with
         | |- context [Buffer_length ?s] =>
             tryif is_var s then fail else
               let v := eval vm_compute in (Buffer_length s) in
               change (Buffer_length s) with v
         end.
  lia.
Qed.

(** X21.  The prompt cannot put a path separator into the name of the
    file: when the project id holds no slash, neither does the file
    name. *)
Theorem fileName_no_slash (prompt projectId : string) :
  allChars (fun c => negb (Ascii.eqb c "/")) projectId = true ->
  allChars (fun c => negb (Ascii.eqb c "/"))
    (STLRoute.fileName prompt projectId) = true.
Proof.
  intros H. unfold STLRoute.fileName.
  rewrite !allChars_app, H, substring_replaceNonAlphaNumeric.
  rewrite (allChars_impl fileNameChar _ _ fileNameChar_not_slash
             (allChars_replaceNonAlphaNumeric _)).
  reflexivity.
Qed.

(** A prompt full of separators. *)
Lemma fileName_no_slash_witness :
  allChars (fun c => negb (Ascii.eqb c "/")) "p1" = true /\
  allChars (fun c => negb (Ascii.eqb c "/"))
    (STLRoute.fileName "../../etc/passwd" "p1") = true.
Proof.
  assert (H : allChars (fun c => negb (Ascii.eqb c "/")) "p1" = true)
    by reflexivity.
  split; [exact H |].
  exact (fileName_no_slash "../../etc/passwd" "p1" H).
Defined.

(** An id with no underscore has no time stamp to read. *)
Lemma checkJobStatus_outcomes_witness :
  JS.parseInt (match nth_error (JS.split "_" "job42") 1 with
               | Some part => part
               | None => "undefined"
               end) = None /\
  EdgeOneClient.status (EdgeOneClient.checkJobStatus 1700000000000 "job42")
  = EdgeOneClient.completed.
Proof.
  assert (H : JS.parseInt (match nth_error (JS.split "_" "job42") 1 with
                           | Some part => part
                           | None => "undefined"
                           end) = None) by reflexivity.
  split; [exact H |].
  exact (proj2 (proj2 (checkJobStatus_outcomes 1700000000000 "job42")) H).
Defined.
